(** * IBM Power E-Cart: connection lifecycle, schema initialisation and
      cart/checkout handlers of [app/app.py], as state-and-exception passing
      programs over a model of the Db2 store.

    Reading guide.
    - Money is kept in cents ([Z]): the columns are [DECIMAL(10,2)] and the
      [float] the handlers carry between two statements is taken to hold the
      same amount.
    - The three tables are lists of rows, in insertion order; the tables are
      taken to exist, and everything that makes a statement fail in the
      driver (missing table, overflow, lost network, ...) is the business of
      the environment [env], which decides for every driver call whether it
      raises.
    - Strings hold the UTF-8 bytes of the text, form fields included.
    - Exceptions of the model are instances of Python's [Exception]; this is
      what the driver raises and what every [except Exception] of the source
      catches.
    - [print] calls and timestamp columns are left out. *)

From stdpp Require Import gmap strings list pretty.
From Stdlib Require Import ZArith Lia Ascii.

Local Open Scope string_scope.
Local Open Scope list_scope.
Local Open Scope Z_scope.

(** ** Exceptions *)

Inductive ExcClass :=
  ExceptionC | TypeErrorC | ValueErrorC | IndexErrorC | OverflowErrorC | OSErrorC
| DatabaseErrorC.

Record Exc := mkExc { exc_class : ExcClass; exc_msg : string }.

(** [str(exc)] *)
Definition str (e : Exc) : string := exc_msg e.

Inductive Outcome (A : Type) :=
| Return (a : A)
| Raise (e : Exc).
Arguments Return {A} a.
Arguments Raise {A} e.

(** ** Data model: the three tables *)

Record Product := mkProduct {
  p_id : Z; p_name : string; p_description : string;
  p_price : Z; p_stock : Z; p_category : string }.

Record CartItem := mkCartItem { c_id : Z; c_product_id : Z; c_quantity : Z }.

Record Order := mkOrder { o_id : Z; o_total_amount : Z; o_status : string }.

Record Store := mkStore {
  products : list Product;
  cart_items : list CartItem;
  orders : list Order;
  next_product_id : Z;   (* GENERATED ALWAYS AS IDENTITY counters *)
  next_cart_id : Z;
  next_order_id : Z }.

Inductive Table := TProducts | TCartItems | TOrders.

(** The statements the modelled functions send through [cur.execute]. *)
Inductive Stmt :=
| CreateTable (t : Table)
| SelectCountProducts
| InsertProduct (name description : string) (price stock : Z) (category : string)
| SelectCartTotal
| SelectCartByProduct (product_id : string)
| UpdateCartQuantity (new_qty id : Z)
| InsertCartItem (product_id : string) (qty : Z)
| InsertOrder (total : Z) (status : string)
| DeleteCartItems
| SelectDummy.

(** Driver calls, as they are issued on the connection and its cursor. *)
Inductive Call :=
| CConnect                (* ibm_db_dbi.connect(DB2_CONN_STR, "", "") *)
| CCursor                 (* conn.cursor() *)
| CExecute (s : Stmt)     (* cur.execute(sql, params) *)
| CFetchone               (* cur.fetchone() *)
| CCursorClose            (* cur.close() *)
| CCommit                 (* conn.commit() *)
| CRollback               (* conn.rollback() *)
| CClose                  (* conn.close() *)
| CSleep (d : Z).         (* time.sleep(delay) *)

#[global] Instance Table_eq_dec : EqDecision Table.
Proof. solve_decision. Defined.

#[global] Instance Stmt_eq_dec : EqDecision Stmt.
Proof. solve_decision. Defined.

#[global] Instance Call_eq_dec : EqDecision Call.
Proof. solve_decision. Defined.

Definition Row := list Z.

(** The world: the committed store, the open connection's uncommitted view
    of it (if a connection is open), the rows waiting in the cursor, and the
    driver calls issued so far, most recent first. *)
Record World := mkWorld {
  db : Store;
  conn : option Store;
  cursor : list Row;
  log : list Call }.

Definition M (A : Type) : Type := World -> World * Outcome A.

Definition ret {A} (a : A) : M A := fun w => (w, Return a).

Definition raise {A} (e : Exc) : M A := fun w => (w, Raise e).

Definition bind {A B} (m : M A) (k : A -> M B) : M B := fun w =>
  match m w with
  | (w1, Return a) => k a w1
  | (w1, Raise e) => (w1, Raise e)
  end.

(** [try: m  except Exception as exc: handler exc] *)
Definition try_except {A} (m : M A) (handler : Exc -> M A) : M A := fun w =>
  match m w with
  | (w1, Return a) => (w1, Return a)
  | (w1, Raise e) => handler e w1
  end.

(** [try: m  finally: cleanup]: an exception of the cleanup replaces the
    outcome of [m]. *)
Definition try_finally {A} (m : M A) (cleanup : M unit) : M A := fun w =>
  match m w with
  | (w1, r) =>
      match cleanup w1 with
      | (w2, Return _) => (w2, r)
      | (w2, Raise e) => (w2, Raise e)
      end
  end.

Declare Scope py_scope.
Delimit Scope py_scope with py.
Notation "'do' x <- c1 ; c2" := (bind c1 (fun x => c2))
  (at level 10, x name, c1 at level 100, c2 at level 200) : py_scope.
Notation "'run' c1 ; c2" := (bind c1 (fun _ => c2))
  (at level 10, c1 at level 100, c2 at level 200) : py_scope.
Local Open Scope py_scope.

(** ** Strings *)

(** [needle in hay] *)
Fixpoint contains (needle hay : string) : bool :=
  String.prefix needle hay ||
  match hay with
  | EmptyString => false
  | String _ rest => contains needle rest
  end.

(** Strings hold the UTF-8 bytes of Python's [str].  A character is the
    lead byte and the continuation bytes that follow it. *)
Definition utf8_width (a : ascii) : nat :=
  let n := nat_of_ascii a in
  if (n <? 192)%nat then 1%nat
  else if (n <? 224)%nat then 2%nat
  else if (n <? 240)%nat then 3%nat
  else 4%nat.

Fixpoint take_bytes (n : nat) (s : string) : string * string :=
  match n, s with
  | S n', String a rest =>
      let (c, rest') := take_bytes n' rest in (String a c, rest')
  | _, _ => (EmptyString, s)
  end.

(** The characters of a string, in at most [fuel] steps. *)
Fixpoint chars_of (fuel : nat) (s : string) : list string :=
  match fuel, s with
  | S fuel', String a _ =>
      let (c, rest) := take_bytes (utf8_width a) s in
      c :: chars_of fuel' rest
  | _, _ => []
  end.

Definition chars (s : string) : list string := chars_of (String.length s) s.

Definition bytes (l : list nat) : string :=
  foldr (fun n s => String (ascii_of_nat n) s) EmptyString l.

(** The characters [str.strip()] removes: U+0009 to U+000D, U+001C to
    U+0020, U+0085, U+00A0, U+1680, U+2000 to U+200A, U+2028, U+2029,
    U+202F, U+205F and U+3000. *)
Definition whitespace : list string :=
  ((bytes <$> [[9]; [10]; [11]; [12]; [13]; [28]; [29]; [30]; [31]; [32];
               [194; 133]; [194; 160]; [225; 154; 128]])
   ++ ((fun n => bytes [226; 128; n]) <$> seq 128 11)
   ++ (bytes <$> [[226; 128; 168]; [226; 128; 169]; [226; 128; 175];
                  [226; 129; 159]; [227; 128; 128]]))%nat.

Definition is_space (c : string) : bool := bool_decide (c ∈ whitespace).

Fixpoint lstrip (l : list string) : list string :=
  match l with
  | c :: rest => if is_space c then lstrip rest else l
  | [] => []
  end.

(** [s.strip()] *)
Definition strip (s : string) : string :=
  String.concat "" (rev (lstrip (rev (lstrip (chars s))))).

(** ** SQL semantics on a store *)

Definition sum_Z (l : list Z) : Z := foldr Z.add 0 l.

(** [SELECT COALESCE(SUM(DECIMAL(p.price * c.quantity, 10, 2)), 0)
     FROM cart_items c JOIN products p ON c.product_id = p.id] *)
Definition cart_total (s : Store) : Z :=
  sum_Z (c ← cart_items s;
         p ← filter (fun p => p_id p = c_product_id c) (products s);
         [p_price p * c_quantity c]).

(** The amounts the query sums, one for each cart row joined to its
    product: [p.price * c.quantity], in cents. *)
Definition cart_lines (s : Store) : list Z :=
  c ← cart_items s;
  p ← filter (fun p => p_id p = c_product_id c) (products s);
  [p_price p * c_quantity c].

(** What [DECIMAL(10,2)] holds, the type of the cast in the query and of
    the [total_amount] of an order: ten digits, two of them cents. *)
Definition fits_decimal_10_2 (cents : Z) : bool := Z.abs cents <? 10000000000.

(** The rows of [... FROM cart_items WHERE product_id = ?]. *)
Definition cart_rows_for (pid : Z) (s : Store) : list CartItem :=
  filter (fun c => c_product_id c = pid) (cart_items s).

(** [UPDATE cart_items SET quantity = ? WHERE id = ?], row by row. *)
Definition set_quantity (new_qty id : Z) (c : CartItem) : CartItem :=
  if decide (c_id c = id)
  then mkCartItem (c_id c) (c_product_id c) new_qty
  else c.

Definition set_cart (s : Store) (rows : list CartItem) : Store :=
  mkStore (products s) rows (orders s)
          (next_product_id s) (next_cart_id s) (next_order_id s).

Definition db_error (msg : string) : Exc := mkExc DatabaseErrorC msg.

(** ["SQL0601N" in str(exc) or "-601" in str(exc)] *)
Definition already_exists (exc : Exc) : bool :=
  contains "SQL0601N" (str exc) || contains "-601" (str exc).

(** Values passed positionally to a Python function. *)
Inductive PyVal := VCursor | VSql (st : Stmt) | VStr (s : string).

(** The names of missing parameters, as the [TypeError] lists them:
    ['a'], ['a' and 'b'], ['a', 'b', and 'c']. *)
Fixpoint listed_more (names : list string) : string :=
  match names with
  | [] => ""
  | [a] => "and '" +:+ a +:+ "'"
  | a :: rest => "'" +:+ a +:+ "', " +:+ listed_more rest
  end.

Definition listed_names (names : list string) : string :=
  match names with
  | [] => ""
  | [a] => "'" +:+ a +:+ "'"
  | [a; b] => "'" +:+ a +:+ "' and '" +:+ b +:+ "'"
  | _ => listed_more names
  end.

(** Binding positional arguments to the parameters of a [def] without
    defaults: [TypeError] unless there are as many arguments as parameters. *)
Definition call_positional {A} (fname : string) (params : list string)
    (args : list PyVal) (body : list PyVal -> M A) : M A :=
  let given := length args in
  let wanted := length params in
  if decide (given = wanted) then body args
  else if decide (given < wanted)%nat
  then raise (mkExc TypeErrorC
         (fname +:+ "() missing " +:+ pretty (wanted - given)%nat +:+
          " required positional argument" +:+
          (if decide (wanted - given = 1)%nat then "" else "s") +:+ ": " +:+
          listed_names (drop given params)))
  else raise (mkExc TypeErrorC
         (fname +:+ "() takes " +:+ pretty wanted +:+
          " positional argument" +:+
          (if decide (wanted = 1)%nat then "" else "s") +:+ " but " +:+
          pretty given +:+
          (if decide (given = 1)%nat then " was given" else " were given"))).

(** The flash message of a redirect: a text, or the order confirmation
    [f"Order placed! Total: ${total:,.2f} ✓"] kept as its amount. *)
Inductive Flash :=
| Text (s : string)
| OrderPlaced (total : Z).

(** What a handler returns: [redirect(url_for("index", msg=..., type=...))]
    or [jsonify(body), status]. *)
Inductive Response :=
| Redirect (msg : Flash) (type : string)
| Json (body : list (string * string)) (status : Z).

Definition status_code (r : Response) : Z :=
  match r with
  | Redirect _ _ => 302
  | Json _ status => status
  end.

(** The [TypeError] of a call of [_create_table_if_not_exists] with two
    arguments. *)
Definition missing_table_name : Exc :=
  mkExc TypeErrorC
    "_create_table_if_not_exists() missing 1 required positional argument: 'table_name'".

(** The sample catalogue [init_db] is written to insert, prices in cents. *)
Definition seed_products : list (string * string * Z * Z * string) :=
  [ ("IBM Power10 Server S1022", "Dual-socket POWER10 server — ppc64le architecture, ideal for AI/ML workloads", 4999999, 10, "Servers");
    ("IBM Fusion HCI Node", "Hyper-converged infrastructure node for OpenShift — NVMe + 25GbE", 8999999, 5, "HCI");
    ("Red Hat OpenShift Subscription", "Enterprise Kubernetes platform subscription (1 year, unlimited nodes)", 129999, 100, "Software");
    ("IBM Db2 Enterprise License", "Enterprise database license for IBM Power — includes HA and partitioning", 499999, 50, "Software");
    ("NVMe SSD 3.84TB U.2", "High-speed NVMe storage for HCI nodes — 7GB/s read", 129999, 30, "Storage");
    ("25GbE Dual-Port NIC", "High-performance 25GbE network adapter for OCP nodes", 39999, 75, "Networking");
    ("IBM Storage Scale License", "Parallel file system license for IBM Fusion HCI", 249999, 20, "Software");
    ("DDR5 128GB RDIMM", "Server memory module for IBM Power10 — DDR5 4800MHz", 89999, 40, "Memory") ].

(** ** Further helpers of the application *)

(** [s.replace(old, new)] for a one-character [old]. *)
Fixpoint replace_char (old : ascii) (new s : string) : string :=
  match s with
  | EmptyString => EmptyString
  | String a rest =>
      if Ascii.eqb a old
      then new +:+ replace_char old new rest
      else String a (replace_char old new rest)
  end.

(** [_q(value)], on a value that is a string. *)
Definition _q (value : string) : string := replace_char "'" "''" value.

(** How the body of an SQL string literal is read: two quotes stand for one
    quote, and a quote on its own ends the literal ([None]: the text is not
    the body of one literal). *)
Fixpoint sql_literal_body (s : string) : option string :=
  match s with
  | EmptyString => Some EmptyString
  | String a rest =>
      if Ascii.eqb a "'"
      then match rest with
           | String b rest' =>
               if Ascii.eqb b "'"
               then String "'" <$> sql_literal_body rest'
               else None
           | EmptyString => None
           end
      else String a <$> sql_literal_body rest
  end.

(** A request to one of the routes that write, or to the probe. *)
Inductive Request :=
| PostProduct (form : gmap string string)
| PostCartAdd (form : gmap string string)
| PostCartRemove (cart_id : Z)
| PostCheckout
| GetReady.

(** Statements of the application that [Stmt] does not list; they are not
    entered in the call log, and an environment of their own decides whether
    they raise. *)
Inductive OtherStmt :=
| DeleteCartItem (cart_id : Z).

(** [DELETE FROM cart_items WHERE id = ?] *)
Definition run_other (st : OtherStmt) (s : Store) : Store :=
  match st with
  | DeleteCartItem cart_id =>
      set_cart s (filter (fun c => c_id c <> cart_id) (cart_items s))
  end.

(** The store after a checkout that placed an order of amount [total]. *)
Definition order_placed (s : Store) (total : Z) : Store :=
  mkStore (products s) []
          (orders s ++ [mkOrder (next_order_id s) total "completed"])
          (next_product_id s) (next_cart_id s) (next_order_id s + 1).

(** The store after an add-to-cart request for product [pid] with quantity
    [qty]: a new row when the cart has none for [pid], and otherwise the
    quantity of the first such row raised by [qty]. *)
Definition cart_added (s : Store) (pid qty : Z) : Store :=
  match cart_rows_for pid s with
  | [] =>
      mkStore (products s) (cart_items s ++ [mkCartItem (next_cart_id s) pid qty])
              (orders s) (next_product_id s) (next_cart_id s + 1) (next_order_id s)
  | c :: _ =>
      set_cart s (set_quantity (c_quantity c + qty) (c_id c) <$> cart_items s)
  end.

(** ** Vocabulary for the call log *)

(** [k] failed connection attempts, each followed by its wait, as they
    appear in the log (most recent first). *)
Fixpoint failed_attempts (delay : Z) (k : nat) : list Call :=
  match k with
  | O => []
  | S k' => CSleep delay :: CConnect :: failed_attempts delay k'
  end.

(** Number of connection attempts in a stretch of the log. *)
Fixpoint connects (l : list Call) : nat :=
  match l with
  | [] => O
  | CConnect :: rest => S (connects rest)
  | _ :: rest => connects rest
  end.

(** Number of waits in a stretch of the log. *)
Fixpoint sleeps (l : list Call) : nat :=
  match l with
  | [] => O
  | CSleep _ :: rest => S (sleeps rest)
  | _ :: rest => sleeps rest
  end.

(** Seconds waited in a stretch of the log. *)
Fixpoint slept (l : list Call) : Z :=
  match l with
  | [] => 0
  | CSleep d :: rest => d + slept rest
  | _ :: rest => slept rest
  end.

(** No statement is executed in a stretch of the log. *)
Definition no_execute (l : list Call) : Prop :=
  Forall (fun c => match c with CExecute _ => False | _ => True end) l.

(** ** Concrete instances, for running the model *)

(** The environment in which no driver call raises. *)
Definition reliable : list Call -> Call -> option Exc := fun _ _ => None.

Definition digit (a : ascii) : option Z :=
  let n := Z.of_nat (nat_of_ascii a) in
  if (48 <=? n) && (n <=? 57) then Some (n - 48) else None.

Fixpoint digits (acc : Z) (s : string) : option Z :=
  match s with
  | EmptyString => Some acc
  | String a rest =>
      match digit a with
      | Some d => digits (10 * acc + d) rest
      | None => None
      end
  end.

(** A reader of signed decimal numerals, standing for [int] and for Db2's
    conversion in the examples. *)
Definition decimal (s : string) : option Z :=
  match s with
  | EmptyString => None
  | String "-" (String a rest) => Z.opp <$> digits 0 (String a rest)
  | String "+" (String a rest) => digits 0 (String a rest)
  | _ => digits 0 s
  end.

Definition empty_store : Store := mkStore [] [] [] 1 1 1.

Definition start (s : Store) : World := mkWorld s None [] [].

(** A store as a first initialisation is meant to leave it: the eight seed
    products, no cart row, no order. *)
Definition seeded_store : Store :=
  mkStore
    ((fun '(id, (name, description, price, stock, category)) =>
        mkProduct id name description price stock category)
       <$> zip (seqZ 1 8) seed_products)
    [] [] 9 1 1.

(** The environment of a store whose tables exist: every [CREATE TABLE]
    is answered with SQL0601N, nothing else raises. *)
Definition tables_exist : list Call -> Call -> option Exc := fun _ c =>
  match c with
  | CExecute (CreateTable _) =>
      Some (mkExc DatabaseErrorC
              "SQL0601N  The name of the object to be created is identical to the existing name. SQLSTATE=42710 SQLCODE=-601")
  | _ => None
  end.

(** A store with one product and two units of it in the cart. *)
Definition shop_store : Store :=
  mkStore [mkProduct 1 "NVMe SSD 3.84TB U.2" "High-speed NVMe storage" 129999 30 "Storage"]
          [mkCartItem 1 1 2] [] 2 2 1.

(** The form of an add-to-cart request. *)
Definition add_form (product_id quantity : string) : gmap string string :=
  {[ "product_id" := product_id; "quantity" := quantity ]}.

(** The environment of an unreachable store: every connection attempt
    raises. *)
Definition unreachable : list Call -> Call -> option Exc := fun _ c =>
  match c with
  | CConnect => Some (mkExc DatabaseErrorC "SQL30081N  A communication error has been detected")
  | _ => None
  end.

(** The environment in which the cart-total query raises. *)
Definition total_query_fails : list Call -> Call -> option Exc := fun _ c =>
  match c with
  | CExecute SelectCartTotal =>
      Some (mkExc DatabaseErrorC "SQL0911N  The current transaction has been rolled back")
  | _ => None
  end.

(** The environment of a store that holds [s]: the cart-total query is
    refused with SQL0413N when a line amount of [s] does not fit the
    [DECIMAL(10,2)] it is cast to, and nothing else raises. *)
Definition line_overflows (s : Store) : list Call -> Call -> option Exc := fun _ c =>
  match c with
  | CExecute SelectCartTotal =>
      if forallb fits_decimal_10_2 (cart_lines s) then None
      else Some (mkExc DatabaseErrorC
                   "SQL0413N  Overflow occurred during numeric data type conversion. SQLSTATE=22003 SQLCODE=-413")
  | _ => None
  end.

(** The seeded store with 1200 units of the second seed product, at
    89999.99 each, in the cart. *)
Definition bulk_store : Store :=
  mkStore (products seeded_store) [mkCartItem 1 2 1200] [] 9 2 1.

(** The environment in which every commit raises. *)
Definition commit_fails : list Call -> Call -> option Exc := fun _ c =>
  match c with
  | CCommit => Some (mkExc DatabaseErrorC "SQL30081N  A communication error has been detected")
  | _ => None
  end.

(** The environment in which opening a cursor raises. *)
Definition cursor_fails : list Call -> Call -> option Exc := fun _ c =>
  match c with
  | CCursor => Some (mkExc DatabaseErrorC "SQL1224N  The database manager is not able to accept new requests")
  | _ => None
  end.

(** The environment in which [conn.close()] raises once the cart has been
    cleared on the connection, and nothing else does. *)
Definition close_fails_after_clearing : list Call -> Call -> option Exc := fun h c =>
  match c with
  | CClose =>
      if decide (CExecute DeleteCartItems ∈ h)
      then Some (mkExc DatabaseErrorC "SQL30081N  A communication error has been detected")
      else None
  | _ => None
  end.

(** No statement outside [Stmt] raises. *)
Definition other_reliable : list Call -> OtherStmt -> option Exc := fun _ _ => None.

(** A store whose one product has a negative price, with one unit of it in
    the cart. *)
Definition refund_store : Store :=
  mkStore [mkProduct 1 "Trade-in credit" "" (-5000) 1 "General"]
          [mkCartItem 1 1 1] [] 2 2 1.

(** The form of an add-product request. *)
Definition product_form (name price stock category : string) : gmap string string :=
  {[ "name" := name; "price" := price; "stock" := stock; "category" := category ]}.

(** A stand-in for the store's conversion of a price to [DECIMAL(10,2)], on
    the whole numbers of units that the examples take as floats: the price
    in cents, when it has eight digits at most before the point. *)
Definition decimal_10_2 (units : Z) : option Z :=
  if fits_decimal_10_2 (100 * units) then Some (100 * units) else None.

(** U+00A0, the no-break space. *)
Definition nbsp : string := bytes [194; 160]%nat.

Section App.

(** Python's [int] on a string ([None]: it raises [ValueError]) and Db2's
    conversion of a string parameter compared with or stored in an [INTEGER]
    column ([None]: the statement fails). *)
Variable py_int : string -> option Z.
Variable db2_integer : string -> option Z.

(** The environment: from the calls issued so far and the call being made,
    whether the driver raises. *)
Variable env : list Call -> Call -> option Exc.

(** What a statement does to the connection's view, and the rows it
    leaves in the cursor. *)
Definition run_stmt (st : Stmt) (s : Store) : Outcome (Store * list Row) :=
  match st with
  | CreateTable _ => Return (s, [])
  | SelectCountProducts => Return (s, [[Z.of_nat (length (products s))]])
  | InsertProduct name description price stock category =>
      Return (mkStore (products s ++
                         [mkProduct (next_product_id s) name description price stock category])
                      (cart_items s) (orders s)
                      (next_product_id s + 1) (next_cart_id s) (next_order_id s), [])
  | SelectCartTotal => Return (s, [[cart_total s]])
  | SelectCartByProduct product_id =>
      match db2_integer product_id with
      | Some pid =>
          Return (s, (fun c => [c_id c; c_quantity c]) <$> cart_rows_for pid s)
      | None => Raise (db_error "SQL0420N  Invalid character found in a character string argument")
      end
  | UpdateCartQuantity new_qty id =>
      Return (set_cart s (set_quantity new_qty id <$> cart_items s), [])
  | InsertCartItem product_id qty =>
      match db2_integer product_id with
      | Some pid =>
          Return (mkStore (products s)
                          (cart_items s ++ [mkCartItem (next_cart_id s) pid qty])
                          (orders s)
                          (next_product_id s) (next_cart_id s + 1) (next_order_id s), [])
      | None => Raise (db_error "SQL0420N  Invalid character found in a character string argument")
      end
  | InsertOrder total status =>
      Return (mkStore (products s) (cart_items s)
                      (orders s ++ [mkOrder (next_order_id s) total status])
                      (next_product_id s) (next_cart_id s) (next_order_id s + 1), [])
  | DeleteCartItems => Return (set_cart s [], [])
  | SelectDummy => Return (s, [[1]])
  end.

(** The state change of a driver call that does not raise. *)
Definition effect (c : Call) (w : World) : World * Outcome unit :=
  match c with
  | CConnect => (mkWorld (db w) (Some (db w)) [] (log w), Return tt)
  | CCursor => (mkWorld (db w) (conn w) [] (log w), Return tt)
  | CExecute st =>
      match conn w with
      | Some v =>
          match run_stmt st v with
          | Return (v', rows) => (mkWorld (db w) (Some v') rows (log w), Return tt)
          | Raise e => (w, Raise e)
          end
      | None => (w, Raise (db_error "Connection is not active"))
      end
  | CFetchone => (mkWorld (db w) (conn w) (tail (cursor w)) (log w), Return tt)
  | CCursorClose => (mkWorld (db w) (conn w) [] (log w), Return tt)
  | CCommit =>
      (mkWorld (match conn w with Some v => v | None => db w end)
               (conn w) (cursor w) (log w), Return tt)
  | CRollback =>
      (mkWorld (db w) (match conn w with Some _ => Some (db w) | None => None end)
               (cursor w) (log w), Return tt)
  | CClose => (mkWorld (db w) None [] (log w), Return tt)
  | CSleep _ => (w, Return tt)
  end.

Definition record (c : Call) (w : World) : World :=
  mkWorld (db w) (conn w) (cursor w) (c :: log w).

(** A driver call: it is recorded, then it raises if the environment says
    so, and has its effect otherwise. *)
Definition driver (c : Call) : M unit := fun w =>
  match env (log w) c with
  | Some e => (record c w, Raise e)
  | None => effect c (record c w)
  end.

Definition connect : M unit := driver CConnect.
Definition conn_cursor : M unit := driver CCursor.
Definition execute (st : Stmt) : M unit := driver (CExecute st).
Definition cur_close : M unit := driver CCursorClose.
Definition commit : M unit := driver CCommit.
Definition rollback : M unit := driver CRollback.
Definition close : M unit := driver CClose.

(** [cur.fetchone()]: the next row of the result, or [None]. *)
Definition fetchone : M (option Row) := fun w =>
  let row := head (cursor w) in
  match driver CFetchone w with
  | (w1, Return _) => (w1, Return row)
  | (w1, Raise e) => (w1, Raise e)
  end.

(** [time.sleep(delay)], a wait recorded in the log.  The delay is turned
    into a count of nanoseconds on 64 bits, which [OverflowError] refuses
    beyond 9223372036 seconds either way; a negative delay is a
    [ValueError]; the deadline, the reading of the monotonic clock plus the
    delay, has to fit the same 64 bits, or the wait is refused with
    [OSError].  Up to 2^62 nanoseconds the deadline fits; above, it is the
    environment that says whether the clock, at its present reading, can
    hold it.  A wait that is refused has not been slept and is not
    recorded. *)
Definition sleep (delay : Z) : M unit := fun w =>
  if (delay <? -9223372036) || (9223372036 <? delay)
  then (w, Raise (mkExc OverflowErrorC "timestamp too large to convert to C _PyTime_t"))
  else if delay <? 0
  then (w, Raise (mkExc ValueErrorC "sleep length must be non-negative"))
  else if delay <=? 4611686018
  then (record (CSleep delay) w, Return tt)
  else match env (log w) (CSleep delay) with
       | Some _ => (w, Raise (mkExc OSErrorC "[Errno 22] Invalid argument"))
       | None => (record (CSleep delay) w, Return tt)
       end.

(** The delays [time.sleep] takes: not negative, and with a deadline the
    clock can hold. *)
Definition sleep_accepts (delay : Z) : Prop :=
  0 <= delay /\
  (delay <= 4611686018 \/
   delay <= 9223372036 /\ forall h, env h (CSleep delay) = None).

(** [row[i]] *)
Definition getitem (row : Row) (i : nat) : M Z :=
  match row !! i with
  | Some x => ret x
  | None => raise (mkExc IndexErrorC "tuple index out of range")
  end.

(** ** Connection helpers *)

(** The [for attempt in range(retries)] loop of [_connect_with_retry],
    over the attempts still to make; [last_exc] is the loop's variable. *)
Fixpoint connect_loop (retries delay : Z) (attempts : list Z) (last_exc : Exc) : M unit :=
  match attempts with
  | [] => raise last_exc
  | attempt :: rest =>
      try_except connect
        (fun exc =>
           run (if attempt <? retries - 1 then sleep delay else ret tt);
           connect_loop retries delay rest exc)
  end.

Definition _connect_with_retry (retries delay : Z) : M unit :=
  connect_loop retries delay (seqZ 0 retries)
               (mkExc ExceptionC "Could not connect to Db2").

(** [with get_db() as conn: body] *)
Definition get_db {A} (body : M A) : M A :=
  run _connect_with_retry 5 5;
  try_finally
    (try_except (do a <- body; run commit; ret a)
                (fun exc => run rollback; raise exc))
    close.

(** ** Schema initialisation *)

(** [_create_table_if_not_exists(cur, create_sql, table_name)]: the call
    protocol binds the positional arguments to the three parameters, none of
    which has a default, and raises [TypeError] before the body runs when
    their number differs. *)
Definition _create_table_if_not_exists (args : list PyVal) : M unit :=
  call_positional "_create_table_if_not_exists" ["cur"; "create_sql"; "table_name"] args
    (fun bound =>
       match bound with
       | [VCursor; VSql create_sql; _] =>
           try_except (execute create_sql)
             (fun exc =>
                if already_exists exc
                then ret tt      (* Table already exists *)
                else raise exc)
       | _ => raise (mkExc TypeErrorC "argument of the wrong type")
       end).

(** [for x in xs: f x] *)
Fixpoint for_each {A} (xs : list A) (f : A -> M unit) : M unit :=
  match xs with
  | [] => ret tt
  | x :: rest => run f x; for_each rest f
  end.

(** The [with get_db() as conn:] block of [init_db]. *)
Definition init_schema : M unit :=
  run conn_cursor;
  run _create_table_if_not_exists [VCursor; VSql (CreateTable TProducts)];
  run _create_table_if_not_exists [VCursor; VSql (CreateTable TCartItems)];
  run _create_table_if_not_exists [VCursor; VSql (CreateTable TOrders)];
  run execute SelectCountProducts;
  do row <- fetchone;
  run (match row with
       | Some (count :: _) =>
           if count =? 0
           then for_each seed_products
                  (fun p => let '(name, description, price, stock, category) := p in
                            execute (InsertProduct name description price stock category))
           else ret tt
       | _ => ret tt
       end);
  cur_close.

Definition init_db : M unit := get_db init_schema.

(** ** Cart and checkout *)

(** The [with get_db() as conn:] block of [get_cart_total]. *)
Definition cart_total_query : M Z :=
  get_db (
    run conn_cursor;
    run execute SelectCartTotal;
    do row <- fetchone;
    run cur_close;
    ret (match row with
         | Some (total :: _) => total
         | _ => 0
         end)).

Definition get_cart_total : M Z :=
  try_except cart_total_query (fun _ => ret 0).

(** [request.form.get(key, default)] *)
Definition form_get (form : gmap string string) (key default_ : string) : string :=
  default default_ (form !! key).

(** The quantity of an add-to-cart request:
    [try: qty = max(1, int(qty_str))  except ValueError: qty = 1]. *)
Definition requested_qty (form : gmap string string) : Z :=
  let qty_str := strip (form_get form "quantity" "1") in
  match py_int qty_str with
  | Some n => Z.max 1 n
  | None => 1
  end.

(** The [with get_db() as conn:] block of [ui_add_to_cart]. *)
Definition add_to_cart_unit (product_id : string) (qty : Z) : M unit :=
  run conn_cursor;
  (* Check if product already in cart *)
  run execute (SelectCartByProduct product_id);
  do row <- fetchone;
  run (match row with
       | Some (r0 :: r) =>
           do id <- getitem (r0 :: r) 0;
           do quantity <- getitem (r0 :: r) 1;
           let new_qty := quantity + qty in
           execute (UpdateCartQuantity new_qty id)
       | _ => execute (InsertCartItem product_id qty)
       end);
  cur_close.

Definition ui_add_to_cart (form : gmap string string) : M Response :=
  let product_id := strip (form_get form "product_id" "") in
  let qty := requested_qty form in
  try_except
    (run get_db (add_to_cart_unit product_id qty);
     ret (Redirect (Text "Item added to cart ✓") "success"))
    (fun exc => ret (Redirect (Text ("Error: " +:+ str exc)) "error")).

Definition ui_checkout : M Response :=
  try_except
    (do total <- get_cart_total;
     if total =? 0
     then ret (Redirect (Text "Cart is empty.") "error")
     else
       run get_db (
         run conn_cursor;
         run execute (InsertOrder total "completed");
         run execute DeleteCartItems;
         cur_close);
       ret (Redirect (OrderPlaced total) "success"))
    (fun exc => ret (Redirect (Text ("Checkout error: " +:+ str exc)) "error")).

(** ** Readiness probe *)

Definition ready : M Response :=
  try_except
    (run connect;
     run conn_cursor;
     run execute SelectDummy;
     run cur_close;
     run close;
     ret (Json [("status", "ready"); ("db", "connected")] 200))
    (fun exc => ret (Json [("status", "not ready"); ("db", str exc)] 503)).

(** ** Start of the service *)

(** The block run at import: [try: init_db()  except Exception as exc:
    print(WARNING)]. *)
Definition startup : M unit :=
  try_except init_db (fun exc => ret tt).

(** ** Catalogue and cart maintenance *)

(** Python's floats, [float] on a string ([None]: it raises [ValueError]),
    and the store's conversion of a float to [DECIMAL(10,2)], in cents
    ([None]: the statement fails). *)
Variable F : Type.
Variable py_float : string -> option F.
Variable db2_decimal : F -> option Z.

(** Whether a statement outside [Stmt] raises. *)
Variable env_other : list Call -> OtherStmt -> option Exc.

(** [cur.execute("INSERT INTO products ...", (name, description, price,
    stock, category))] with a float for the price.  A price the column
    cannot hold is refused by the call; the refusal leaves no entry in the
    log, which records the statements with their amounts in cents. *)
Definition execute_insert_product (name description : string) (price : F)
    (stock : Z) (category : string) : M unit :=
  match db2_decimal price with
  | Some cents => execute (InsertProduct name description cents stock category)
  | None => raise (db_error "SQL0413N  Overflow occurred during numeric data type conversion")
  end.

Definition ui_add_product (form : gmap string string) : M Response :=
  let name := strip (form_get form "name" "") in
  let description := strip (form_get form "description" "") in
  let price_str := strip (form_get form "price" "0") in
  let stock_str := strip (form_get form "stock" "0") in
  let category :=
    let given := strip (form_get form "category" "General") in
    if decide (given = "") then "General" else given in
  if decide (name = "")
  then ret (Redirect (Text "Product name is required.") "error")
  else
    match py_float price_str with
    | None => ret (Redirect (Text "Invalid price or stock value.") "error")
    | Some price =>
        match (if decide (stock_str = "") then Some 0 else py_int stock_str) with
        | None => ret (Redirect (Text "Invalid price or stock value.") "error")
        | Some stock =>
            try_except
              (run get_db (
                 run conn_cursor;
                 run execute_insert_product name description price stock category;
                 cur_close);
               ret (Redirect
                      (Text ("Product '" +:+ name +:+ "' added to IBM Db2 on IBM Power ✓"))
                      "success"))
              (fun exc => ret (Redirect (Text ("Error: " +:+ str exc)) "error"))
        end
    end.

(** [cur.execute] of a statement outside [Stmt]. *)
Definition execute_other (st : OtherStmt) : M unit := fun w =>
  match env_other (log w) st with
  | Some e => (w, Raise e)
  | None =>
      match conn w with
      | Some v => (mkWorld (db w) (Some (run_other st v)) [] (log w), Return tt)
      | None => (w, Raise (db_error "Connection is not active"))
      end
  end.

Definition ui_remove_from_cart (cart_id : Z) : M Response :=
  try_except
    (run get_db (
       run conn_cursor;
       run execute_other (DeleteCartItem cart_id);
       cur_close);
     ret (Redirect (Text "Item removed from cart ✓") "success"))
    (fun exc => ret (Redirect (Text ("Error: " +:+ str exc)) "error")).

(** ** Requests *)

(** The routes that write, and the probe, as the requests they serve:
    [POST /ui/products], [POST /ui/cart/add], [POST /ui/cart/<id>/remove],
    [POST /ui/checkout] and [GET /ready]. *)
Definition handle (req : Request) : M Response :=
  match req with
  | PostProduct form => ui_add_product form
  | PostCartAdd form => ui_add_to_cart form
  | PostCartRemove cart_id => ui_remove_from_cart cart_id
  | PostCheckout => ui_checkout
  | GetReady => ready
  end.

(** Requests served one after the other. *)
Fixpoint serve (reqs : list Request) : M (list Response) :=
  match reqs with
  | [] => ret []
  | req :: rest =>
      do resp <- handle req;
      do resps <- serve rest;
      ret (resp :: resps)
  end.

(** ** Specification vocabulary *)

(** Partial-correctness triples over the state-and-exception monad. *)
Definition hoare {A} (P : World -> Prop) (m : M A) (Q : Outcome A -> World -> Prop) : Prop :=
  forall w w' r, P w -> m w = (w', r) -> Q r w'.

(** What attempt number [j] (from 0) of a connection loop started in [w]
    raises, when the attempts before it failed and were each followed by a
    wait. *)
Definition attempt_outcome (delay : Z) (w : World) (j : nat) : option Exc :=
  env (failed_attempts delay j ++ log w) CConnect.

(** The invariant of an open transaction over the committed store [d0]:
    nothing is committed, the connection's view satisfies [I] and the rows
    waiting in the cursor satisfy [C]. *)
Definition txn (d0 : Store) (I : Store -> Prop) (C : Row -> Prop) (w : World) : Prop :=
  db w = d0 /\ (forall v, conn w = Some v -> I v) /\ Forall C (cursor w).

(** [m] keeps the invariant [J], whatever its outcome, and its value
    satisfies [V] when it returns. *)
Definition keeps {A} (J : World -> Prop) (m : M A) (V : A -> Prop) : Prop :=
  hoare J m (fun r w => J w /\ forall a, r = Return a -> V a).

(** The cart holds at most one row for each product id. *)
Definition one_row_per_product (s : Store) : Prop :=
  forall pid, (length (cart_rows_for pid s) <= 1)%nat.

(** Every cart row has a quantity of at least 1. *)
Definition quantities_positive (s : Store) : Prop :=
  Forall (fun c => 1 <= c_quantity c) (cart_items s).

(** ** The driver *)

Lemma driver_raises c w e :
  env (log w) c = Some e -> driver c w = (record c w, Raise e).
Proof. intros H. unfold driver. now rewrite H. Qed.

Lemma driver_passes c w :
  env (log w) c = None -> driver c w = effect c (record c w).
Proof. intros H. unfold driver. now rewrite H. Qed.

Lemma effect_log c w w' r : effect c w = (w', r) -> log w' = log w.
Proof.
  destruct c; simpl; intros H; try (injection H as <- <-; reflexivity).
  destruct (conn w) as [v|]; [destruct (run_stmt s v) as [[v' rows]|e]|];
    injection H as <- <-; reflexivity.
Qed.

Lemma driver_log c w w' r : driver c w = (w', r) -> log w' = c :: log w.
Proof.
  unfold driver. destruct (env (log w) c).
  - intros H. injection H as <- <-. reflexivity.
  - intros H. apply effect_log in H. exact H.
Qed.

Lemma failed_attempts_snoc delay k :
  failed_attempts delay (S k) = failed_attempts delay k ++ [CSleep delay; CConnect].
Proof.
  induction k as [|k IH]; [reflexivity|].
  simpl in *. now rewrite <- IH.
Qed.



(** ** Connection acquisition *)

Lemma sleep_passes delay w :
  sleep_accepts delay -> sleep delay w = (record (CSleep delay) w, Return tt).
Proof.
  intros [Hpos Hfit]. unfold sleep.
  replace (delay <? -9223372036) with false by (symmetry; apply Z.ltb_ge; lia).
  replace (delay <? 0) with false by (symmetry; apply Z.ltb_ge; lia).
  destruct Hfit as [Hsmall|[Hrange Hclock]].
  - replace (9223372036 <? delay) with false by (symmetry; apply Z.ltb_ge; lia).
    replace (delay <=? 4611686018) with true by (symmetry; apply Z.leb_le; lia).
    reflexivity.
  - replace (9223372036 <? delay) with false by (symmetry; apply Z.ltb_ge; lia).
    rewrite Hclock. cbn. destruct (delay <=? 4611686018); reflexivity.
Qed.


Lemma sleep_accepts_default : sleep_accepts 5.
Proof. split; [lia|left; lia]. Qed.

Lemma connect_loop_spec retries delay :
  sleep_accepts delay ->
  forall (n : nat) last w,
  exists w' r,
    connect_loop retries delay (seqZ (retries - Z.of_nat n) (Z.of_nat n)) last w = (w', r) /\
    match r with
    | Return _ =>
        exists k, (k < n)%nat /\
          w' = mkWorld (db w) (Some (db w)) []
                       (CConnect :: failed_attempts delay k ++ log w) /\
          (forall j, (j < k)%nat -> attempt_outcome delay w j <> None) /\
          attempt_outcome delay w k = None
    | Raise e =>
        match n with
        | O => e = last /\ w' = w
        | S m =>
            w' = mkWorld (db w) (conn w) (cursor w)
                         (CConnect :: failed_attempts delay m ++ log w) /\
            (forall j, (j < m)%nat -> attempt_outcome delay w j <> None) /\
            attempt_outcome delay w m = Some e
        end
    end.
Proof.
  intros Hdelay n. induction n as [|m IH]; intros last w.
  - exists w, (Raise last). split; [reflexivity|]. split; reflexivity.
  - rewrite seqZ_cons by lia.
    replace (Z.succ (retries - Z.of_nat (S m))) with (retries - Z.of_nat m) by lia.
    replace (Z.pred (Z.of_nat (S m))) with (Z.of_nat m) by lia.
    cbn [connect_loop]. unfold try_except, connect.
    destruct (env (log w) CConnect) as [exc|] eqn:Hfirst.
    + rewrite (driver_raises _ _ _ Hfirst). unfold bind.
      destruct m as [|m'].
      * replace (retries - Z.of_nat 1 <? retries - 1) with false
          by (symmetry; apply Z.ltb_ge; lia).
        cbn. eexists _, _. split; [reflexivity|]. cbn.
        split; [reflexivity|]. split; [intros j Hj; lia|exact Hfirst].
      * replace (retries - Z.of_nat (S (S m')) <? retries - 1) with true
          by (symmetry; apply Z.ltb_lt; lia).
        rewrite (sleep_passes _ _ Hdelay).
        destruct (IH exc (record (CSleep delay) (record CConnect w)))
          as (w' & r & Hrun & Hspec).
        exists w', r. split; [exact Hrun|].
        assert (Hshift : forall j,
                   attempt_outcome delay (record (CSleep delay) (record CConnect w)) j
                   = attempt_outcome delay w (S j)).
        { intros j. unfold attempt_outcome. rewrite failed_attempts_snoc.
          rewrite <- app_assoc. reflexivity. }
        assert (Hlog : forall j,
                   failed_attempts delay j ++ log (record (CSleep delay) (record CConnect w))
                   = failed_attempts delay (S j) ++ log w).
        { intros j. rewrite failed_attempts_snoc, <- app_assoc. reflexivity. }
        destruct r as [[]|e].
        -- destruct Hspec as (k & Hk & -> & Hbefore & Hat).
           exists (S k). split; [lia|]. split.
           { cbn [db record]. rewrite Hlog. reflexivity. }
           split.
           { intros [|j] Hj; [unfold attempt_outcome; cbn; congruence|].
             rewrite <- Hshift. apply Hbefore. lia. }
           rewrite <- Hshift. exact Hat.
        -- destruct Hspec as (-> & Hbefore & Hat). split.
           { cbn [db conn cursor record]. rewrite Hlog. reflexivity. }
           split.
           { intros [|j] Hj; [unfold attempt_outcome; cbn; congruence|].
             rewrite <- Hshift. apply Hbefore. lia. }
           rewrite <- Hshift. exact Hat.
    + rewrite (driver_passes _ _ Hfirst). cbn.
      eexists _, _. split; [reflexivity|]. cbn.
      exists O. split; [lia|]. split; [reflexivity|].
      split; [intros j Hj; lia|exact Hfirst].
Qed.


(** ** The unit of work *)

(** C3. A unit of work [body] run under [get_db], once the connection is
    acquired: when the body completes, [commit] is the next call and, if it
    passes, the connection's pending changes become the committed store and
    the body's value is returned; when the body raises, or [commit] does,
    [rollback] is called, the committed store keeps no pending change and an
    exception propagates (the original one when [rollback] and [close]
    pass).  In every case, also when [commit] or [rollback] raise, [close]
    is the last call issued before control returns, and it leaves no open
    connection unless it raises itself. *)
Theorem get_db_unit_of_work {A} (body : M A) (w w1 w2 : World) (r : Outcome A) :
  _connect_with_retry 5 5 w = (w1, Return tt) ->
  body w1 = (w2, r) ->
  exists w' r',
    get_db body w = (w', r') /\
    head (log w') = Some CClose /\
    (env (tail (log w')) CClose = None -> conn w' = None) /\
    match r with
    | Return a =>
        match env (log w2) CCommit with
        | None =>
            log w' = CClose :: CCommit :: log w2 /\
            db w' = default (db w2) (conn w2) /\
            (env (CCommit :: log w2) CClose = None -> r' = Return a)
        | Some e =>
            log w' = CClose :: CRollback :: CCommit :: log w2 /\
            db w' = db w2 /\
            (exists e', r' = Raise e') /\
            (env (CCommit :: log w2) CRollback = None ->
             env (CRollback :: CCommit :: log w2) CClose = None ->
             r' = Raise e)
        end
    | Raise e =>
        log w' = CClose :: CRollback :: log w2 /\
        db w' = db w2 /\
        (exists e', r' = Raise e') /\
        (env (log w2) CRollback = None ->
         env (CRollback :: log w2) CClose = None ->
         r' = Raise e)
    end.
Proof.
  intros Hconn Hbody.
  unfold get_db, bind, try_finally, try_except, bind.
  rewrite Hconn, Hbody.
  unfold commit, rollback, close, driver, raise, ret.
  destruct r as [a|e]; cbn.
  - destruct (env (log w2) CCommit) as [e|] eqn:Hcommit; cbn.
    + destruct (env (CCommit :: log w2) CRollback) as [e2|] eqn:Hrb; cbn;
        destruct (env (CRollback :: CCommit :: log w2) CClose) as [e3|] eqn:Hcl; cbn;
        eexists _, _; (split; [reflexivity|]); cbn;
        repeat split; eauto; congruence.
    + destruct (env (CCommit :: log w2) CClose) as [e3|] eqn:Hcl; cbn;
        eexists _, _; (split; [reflexivity|]); cbn;
        repeat split; eauto; try congruence; destruct (conn w2); reflexivity.
  - destruct (env (log w2) CRollback) as [e2|] eqn:Hrb; cbn;
      destruct (env (CRollback :: log w2) CClose) as [e3|] eqn:Hcl; cbn;
      eexists _, _; (split; [reflexivity|]); cbn;
      repeat split; eauto; congruence.
Qed.

(** ** Invariants of transaction bodies *)

Lemma keeps_ret {A} J (a : A) (V : A -> Prop) : V a -> keeps J (ret a) V.
Proof.
  intros HV w w' r HJ H. injection H as <- <-.
  split; [exact HJ|]. intros a' [= <-]. exact HV.
Qed.

Lemma keeps_raise {A} J e (V : A -> Prop) : keeps J (raise e) V.
Proof.
  intros w w' r HJ H. injection H as <- <-.
  split; [exact HJ|]. intros a' [=].
Qed.

Lemma keeps_bind {A B} J (m : M A) (k : A -> M B) (V1 : A -> Prop) (V2 : B -> Prop) :
  keeps J m V1 -> (forall a, V1 a -> keeps J (k a) V2) -> keeps J (bind m k) V2.
Proof.
  intros Hm Hk w w' r HJ H. unfold bind in H.
  destruct (m w) as [w1 [a|e]] eqn:Hrun.
  - destruct (Hm _ _ _ HJ Hrun) as [HJ1 HV]. eapply Hk; eauto.
  - injection H as <- <-. destruct (Hm _ _ _ HJ Hrun) as [HJ1 _].
    split; [exact HJ1|]. intros a [=].
Qed.

Lemma keeps_try_except {A} J (m : M A) (h : Exc -> M A) (V : A -> Prop) :
  keeps J m V -> (forall e, keeps J (h e) V) -> keeps J (try_except m h) V.
Proof.
  intros Hm Hh w w' r HJ H. unfold try_except in H.
  destruct (m w) as [w1 [a|e]] eqn:Hrun.
  - injection H as <- <-. eapply Hm; eauto.
  - destruct (Hm _ _ _ HJ Hrun) as [HJ1 _]. eapply Hh; eauto.
Qed.

Lemma keeps_weaken {A} J (m : M A) (V V' : A -> Prop) :
  keeps J m V -> (forall a, V a -> V' a) -> keeps J m V'.
Proof.
  intros Hm HV w w' r HJ H. destruct (Hm _ _ _ HJ H) as [HJ1 Ha].
  split; [exact HJ1|]. intros a Hr. apply HV, Ha, Hr.
Qed.

Lemma keeps_driver J c :
  (forall w, J w -> J (record c w)) ->
  (forall w w' r, J w -> effect c w = (w', r) -> J w') ->
  keeps J (driver c) (fun _ => True).
Proof.
  intros Hrec Heff w w' r HJ H. unfold driver in H.
  destruct (env (log w) c).
  - injection H as <- <-. split; [apply Hrec, HJ|]. intros; exact I.
  - split; [|intros; exact I]. eapply Heff; [apply Hrec, HJ|exact H].
Qed.

Section Transaction.

Variable d0 : Store.
Variable I : Store -> Prop.
Variable C : Row -> Prop.

Lemma txn_record c w : txn d0 I C w -> txn d0 I C (record c w).
Proof. intros H. exact H. Qed.

Lemma keeps_conn_cursor : keeps (txn d0 I C) conn_cursor (fun _ => True).
Proof.
  apply keeps_driver; [apply txn_record|].
  intros w w' r (Hdb & Hview & Hcur) H. injection H as <- <-.
  repeat split; [exact Hdb|exact Hview|constructor].
Qed.

Lemma keeps_cur_close : keeps (txn d0 I C) cur_close (fun _ => True).
Proof.
  apply keeps_driver; [apply txn_record|].
  intros w w' r (Hdb & Hview & Hcur) H. injection H as <- <-.
  repeat split; [exact Hdb|exact Hview|constructor].
Qed.

Lemma keeps_execute st :
  (forall v v' rows, I v -> run_stmt st v = Return (v', rows) -> I v' /\ Forall C rows) ->
  keeps (txn d0 I C) (execute st) (fun _ => True).
Proof.
  intros Hst. apply keeps_driver; [apply txn_record|].
  intros w w' r (Hdb & Hview & Hcur) H. cbn in H.
  destruct (conn w) as [v|] eqn:Hconn.
  - destruct (run_stmt st v) as [[v' rows]|e] eqn:Hrun; injection H as <- <-.
    + destruct (Hst _ _ _ (Hview _ eq_refl) Hrun) as [HI HC].
      repeat split; [exact Hdb| |exact HC]. intros v0 [= <-]. exact HI.
    + repeat split; [exact Hdb| |exact Hcur]. rewrite Hconn. exact Hview.
  - injection H as <- <-.
    repeat split; [exact Hdb| |exact Hcur]. rewrite Hconn. exact Hview.
Qed.

Lemma keeps_fetchone :
  keeps (txn d0 I C) fetchone (fun row => forall r, row = Some r -> C r).
Proof.
  intros w w' r (Hdb & Hview & Hcur) H. unfold fetchone, driver in H.
  assert (Htail : Forall C (tail (cursor w))).
  { destruct Hcur; [constructor|assumption]. }
  destruct (env (log w) CFetchone).
  - injection H as <- <-. split; [repeat split; assumption|]. intros a [=].
  - cbn in H. injection H as <- <-. split; [repeat split; assumption|].
    intros a [= <-] row Hrow. destruct Hcur; [discriminate|].
    injection Hrow as <-. assumption.
Qed.

Lemma keeps_getitem J row i :
  keeps J (getitem row i) (fun x => row !! i = Some x).
Proof.
  unfold getitem. destruct (row !! i) as [x|].
  - apply keeps_ret. reflexivity.
  - apply keeps_raise.
Qed.

End Transaction.

(** The default acquisition never touches the committed store and, when it
    returns, leaves a fresh connection whose view is the committed store. *)
Lemma connect_default w :
  exists w1 r,
    _connect_with_retry 5 5 w = (w1, r) /\ db w1 = db w /\
    (r = Return tt -> conn w1 = Some (db w) /\ cursor w1 = []).
Proof.
  destruct (connect_loop_spec 5 5 sleep_accepts_default 5%nat
              (mkExc ExceptionC "Could not connect to Db2") w)
    as (w1 & r & Hrun & Hspec).
  exists w1, r. split; [exact Hrun|].
  destruct r as [[]|e].
  - destruct Hspec as (k & _ & -> & _). repeat split.
  - destruct Hspec as (-> & _). split; [reflexivity|]. intros [=].
Qed.

(** Under [get_db], what can be committed is a view the body leaves: if the
    body, started on a fresh connection, commits nothing itself and leaves
    only views satisfying [I], then the committed store satisfies [I]
    afterwards; the body's value is passed on. *)
Lemma get_db_commits {A} (body : M A) (I : Store -> Prop) (V : A -> Prop)
    (w w' : World) (r : Outcome A) :
  I (db w) ->
  (forall w1 w2 r2,
      db w1 = db w -> conn w1 = Some (db w) -> cursor w1 = [] ->
      body w1 = (w2, r2) ->
      db w2 = db w /\ (forall v, conn w2 = Some v -> I v) /\
      forall a, r2 = Return a -> V a) ->
  get_db body w = (w', r) ->
  I (db w') /\ forall a, r = Return a -> V a.
Proof.
  intros HI Hbody Hrun.
  destruct (connect_default w) as (w1 & r1 & Hconn & Hdb1 & Hfresh).
  unfold get_db, bind in Hrun. rewrite Hconn in Hrun.
  destruct r1 as [[]|e1].
  2:{ injection Hrun as <- <-. rewrite Hdb1. split; [exact HI|]. intros a [=]. }
  destruct (Hfresh eq_refl) as [Hview1 Hcur1].
  unfold try_finally, try_except, bind in Hrun.
  destruct (body w1) as [w2 r2] eqn:Hb.
  destruct (Hbody _ _ _ Hdb1 Hview1 Hcur1 Hb) as (Hdb2 & Hview2 & HV).
  unfold commit, rollback, close, driver, raise, ret in Hrun.
  destruct r2 as [a|e]; cbn in Hrun.
  - destruct (env (log w2) CCommit) as [e|]; cbn in Hrun.
    + destruct (env (CCommit :: log w2) CRollback); cbn in Hrun;
        destruct (env (CRollback :: CCommit :: log w2) CClose); cbn in Hrun;
        injection Hrun as <- <-; cbn; rewrite Hdb2;
        (split; [exact HI|intros ? [=]]).
    + assert (Hcommitted : I (default (db w2) (conn w2))).
      { destruct (conn w2) as [v|]; cbn; [apply Hview2; reflexivity|].
        rewrite Hdb2. exact HI. }
      destruct (env (CCommit :: log w2) CClose); cbn in Hrun;
        injection Hrun as <- <-; cbn.
      * split; [|intros ? [=]]. destruct (conn w2); exact Hcommitted.
      * split; [destruct (conn w2); exact Hcommitted|].
        intros a' [= <-]. apply HV. reflexivity.
  - destruct (env (log w2) CRollback); cbn in Hrun;
      destruct (env (CRollback :: log w2) CClose); cbn in Hrun;
      injection Hrun as <- <-; cbn; rewrite Hdb2;
      (split; [exact HI|intros ? [=]]).
Qed.

Lemma get_db_keeps {A} (body : M A) (I : Store -> Prop) (C : Row -> Prop)
    (V : A -> Prop) (w w' : World) (r : Outcome A) :
  I (db w) ->
  keeps (txn (db w) I C) body V ->
  get_db body w = (w', r) ->
  I (db w') /\ forall a, r = Return a -> V a.
Proof.
  intros HI Hbody. apply get_db_commits; [exact HI|].
  intros w1 w2 r2 Hdb1 Hview1 Hcur1 Hb.
  assert (HJ1 : txn (db w) I C w1).
  { repeat split; [exact Hdb1| |rewrite Hcur1; constructor].
    intros v Hv. rewrite Hview1 in Hv. injection Hv as <-. exact HI. }
  destruct (Hbody _ _ _ HJ1 Hb) as [(Hdb2 & Hview2 & _) HV].
  repeat split; assumption.
Qed.

(** ** The cart total *)

Lemma cart_total_query_spec w w' r :
  cart_total_query w = (w', r) ->
  db w' = db w /\ forall t, r = Return t -> t = 0 \/ t = cart_total (db w).
Proof.
  intros Hrun. unfold cart_total_query in Hrun.
  refine (get_db_keeps _ (fun v => v = db w) (fun row => row = [cart_total (db w)])
            (fun t => t = 0 \/ t = cart_total (db w)) w w' r eq_refl _ Hrun).
  eapply keeps_bind; [apply keeps_conn_cursor|]. intros _ _.
  eapply keeps_bind.
  { apply keeps_execute. intros v v' rows -> [= <- <-].
    split; [reflexivity|]. repeat constructor. }
  intros _ _. eapply keeps_bind; [apply keeps_fetchone|]. intros row Hrow.
  eapply keeps_bind; [apply keeps_cur_close|]. intros _ _.
  apply keeps_ret. destruct row as [r0|]; [|now left].
  rewrite (Hrow r0 eq_refl). now right.
Qed.

Lemma get_cart_total_spec w :
  exists w' t,
    get_cart_total w = (w', Return t) /\ db w' = db w /\
    (t = 0 \/ t = cart_total (db w)).
Proof.
  unfold get_cart_total, try_except.
  destruct (cart_total_query w) as [w' [t|e]] eqn:Hrun;
    destruct (cart_total_query_spec _ _ _ Hrun) as [Hdb Ht].
  - exists w', t. repeat split; [exact Hdb|]. apply Ht. reflexivity.
  - exists w', 0. repeat split; [exact Hdb|]. now left.
Qed.

(** C10. [get_cart_total] never raises, and leaves the store as it is; when
    its query fails with any exception it returns 0, as for an empty cart,
    so that [ui_checkout] then answers "Cart is empty." whatever the cart
    holds, and changes nothing. *)
Theorem get_cart_total_failure_reads_as_empty (w : World) :
  (exists w' t, get_cart_total w = (w', Return t) /\ db w' = db w) /\
  (forall w1 e,
      cart_total_query w = (w1, Raise e) ->
      get_cart_total w = (w1, Return 0) /\
      ui_checkout w = (w1, Return (Redirect (Text "Cart is empty.") "error")) /\
      db w1 = db w).
Proof.
  split.
  - destruct (get_cart_total_spec w) as (w' & t & Hrun & Hdb & _). eauto.
  - intros w1 e Hq.
    assert (Htotal : get_cart_total w = (w1, Return 0)).
    { unfold get_cart_total, try_except. rewrite Hq. reflexivity. }
    split; [exact Htotal|]. split.
    + unfold ui_checkout, try_except, bind. rewrite Htotal. reflexivity.
    + apply (cart_total_query_spec _ _ _ Hq).
Qed.

(** C5. In every state whose cart total is zero, and whatever the driver
    does, [ui_checkout] leaves the store as it is (no order row, the cart
    and the products untouched) and answers with the redirect carrying the
    error "Cart is empty.", not with a 5xx status. *)
Theorem checkout_empty_cart (w : World) :
  cart_total (db w) = 0 ->
  exists w',
    ui_checkout w = (w', Return (Redirect (Text "Cart is empty.") "error")) /\
    db w' = db w /\
    status_code (Redirect (Text "Cart is empty.") "error") < 500.
Proof.
  intros Hzero.
  destruct (get_cart_total_spec w) as (w' & t & Hrun & Hdb & Ht).
  assert (t = 0) as -> by (destruct Ht; congruence).
  exists w'. split; [|split; [exact Hdb|reflexivity]].
  unfold ui_checkout, try_except, bind. rewrite Hrun. reflexivity.
Qed.

(** ** The readiness probe *)

Ltac probe_case :=
  repeat split; intros; simplify_eq; try reflexivity;
  try (left; reflexivity); try (right; eexists; reflexivity).

(** C8. [ready] makes exactly one connection attempt and never waits, and it
    always returns a response.  When the attempt raises, the response is 503
    with status "not ready" and the error string; when the attempt and the
    probe that follows it pass, the response is 200 with
    [{"status": "ready", "db": "connected"}]. *)
Theorem ready_single_attempt (w : World) :
  exists w' resp calls,
    ready w = (w', Return resp) /\
    log w' = calls ++ log w /\
    connects calls = 1%nat /\ sleeps calls = 0%nat /\
    (forall e, env (log w) CConnect = Some e ->
       calls = [CConnect] /\
       resp = Json [("status", "not ready"); ("db", str e)] 503) /\
    (env (log w) CConnect = None ->
     env (CConnect :: log w) CCursor = None ->
     env (CCursor :: CConnect :: log w) (CExecute SelectDummy) = None ->
     env (CExecute SelectDummy :: CCursor :: CConnect :: log w) CCursorClose = None ->
     env (CCursorClose :: CExecute SelectDummy :: CCursor :: CConnect :: log w) CClose = None ->
     resp = Json [("status", "ready"); ("db", "connected")] 200 /\
     conn w' = None) /\
    (resp = Json [("status", "ready"); ("db", "connected")] 200 \/
     exists e, resp = Json [("status", "not ready"); ("db", str e)] 503).
Proof.
  unfold ready, try_except, bind, connect, conn_cursor, execute, cur_close,
    close, driver, ret.
  destruct (env (log w) CConnect) as [e1|] eqn:H1; cbn.
  { eexists _, _, [CConnect]. probe_case. }
  destruct (env (CConnect :: log w) CCursor) as [e2|] eqn:H2; cbn.
  { eexists _, _, [CCursor; CConnect]. probe_case. }
  destruct (env (CCursor :: CConnect :: log w) (CExecute SelectDummy))
    as [e3|] eqn:H3; cbn.
  { eexists _, _, [CExecute SelectDummy; CCursor; CConnect]. probe_case. }
  destruct (env (CExecute SelectDummy :: CCursor :: CConnect :: log w) CCursorClose)
    as [e4|] eqn:H4; cbn.
  { eexists _, _, [CCursorClose; CExecute SelectDummy; CCursor; CConnect].
    probe_case. }
  destruct (env (CCursorClose :: CExecute SelectDummy :: CCursor :: CConnect :: log w)
              CClose) as [e5|] eqn:H5; cbn.
  { eexists _, _, [CClose; CCursorClose; CExecute SelectDummy; CCursor; CConnect].
    probe_case. }
  eexists _, _, [CClose; CCursorClose; CExecute SelectDummy; CCursor; CConnect].
  probe_case.
Qed.

(** ** One cart row per product *)

Lemma filter_set_quantity pid new_qty id (l : list CartItem) :
  filter (fun c => c_product_id c = pid) (set_quantity new_qty id <$> l)
  = set_quantity new_qty id <$> filter (fun c => c_product_id c = pid) l.
Proof.
  induction l as [|c l IH]; [reflexivity|].
  rewrite fmap_cons.
  assert (Hsame : c_product_id (set_quantity new_qty id c) = c_product_id c).
  { unfold set_quantity. now destruct (decide (c_id c = id)). }
  destruct (decide (c_product_id c = pid)) as [Heq|Hne].
  - rewrite !filter_cons_True by congruence. rewrite fmap_cons. now rewrite IH.
  - rewrite !filter_cons_False by congruence. exact IH.
Qed.

(** What the add-to-cart unit of work leaves in the connection's view [v]:
    the view as it was, or the view with a row inserted when it held none
    for the product, or with the quantity of the first row found raised. *)
Lemma add_to_cart_unit_view product_id qty w1 w2 r v :
  conn w1 = Some v ->
  add_to_cart_unit product_id qty w1 = (w2, r) ->
  db w2 = db w1 /\
  exists v',
    conn w2 = Some v' /\
    (v' = v \/
     exists pid,
       db2_integer product_id = Some pid /\
       v' = match cart_rows_for pid v with
            | [] =>
                mkStore (products v)
                        (cart_items v ++ [mkCartItem (next_cart_id v) pid qty])
                        (orders v)
                        (next_product_id v) (next_cart_id v + 1) (next_order_id v)
            | c :: _ =>
                set_cart v (set_quantity (c_quantity c + qty) (c_id c) <$> cart_items v)
            end).
Proof.
  intros Hv Hrun.
  unfold add_to_cart_unit, bind, conn_cursor, execute, fetchone, cur_close, driver
    in Hrun.
  destruct (env (log w1) CCursor); cbn in Hrun.
  { injection Hrun as <- <-. cbn. eauto. }
  destruct (env (CCursor :: log w1) (CExecute (SelectCartByProduct product_id)));
    cbn in Hrun.
  { injection Hrun as <- <-. cbn. eauto. }
  rewrite Hv in Hrun. cbn in Hrun.
  destruct (db2_integer product_id) as [pid|] eqn:Hpid; cbn in Hrun.
  2:{ injection Hrun as <- <-. cbn. eauto. }
  destruct (env (CExecute (SelectCartByProduct product_id) :: CCursor :: log w1) CFetchone);
    cbn in Hrun.
  { injection Hrun as <- <-. cbn. eauto. }
  destruct (cart_rows_for pid v) as [|c rest] eqn:Hrows; cbn in Hrun.
  - destruct (env _ (CExecute (InsertCartItem product_id qty))); cbn in Hrun.
    { injection Hrun as <- <-. cbn. eauto. }
    destruct (env _ CCursorClose); cbn in Hrun; injection Hrun as <- <-; cbn;
      (split; [reflexivity|]); eexists; (split; [reflexivity|]);
      right; exists pid; rewrite Hrows; split; reflexivity.
  - destruct (env _ (CExecute (UpdateCartQuantity _ _))); cbn in Hrun.
    { injection Hrun as <- <-. cbn. eauto. }
    destruct (env _ CCursorClose); cbn in Hrun; injection Hrun as <- <-; cbn;
      (split; [reflexivity|]); eexists; (split; [reflexivity|]);
      right; exists pid; rewrite Hrows; split; reflexivity.
Qed.

Lemma one_row_per_product_insert v pid qty :
  one_row_per_product v ->
  cart_rows_for pid v = [] ->
  one_row_per_product
    (mkStore (products v) (cart_items v ++ [mkCartItem (next_cart_id v) pid qty])
             (orders v) (next_product_id v) (next_cart_id v + 1) (next_order_id v)).
Proof.
  intros Hone Hnone pid'. unfold one_row_per_product, cart_rows_for in *.
  cbn [cart_items]. rewrite filter_app, length_app.
  destruct (decide (pid = pid')) as [<-|Hne].
  - rewrite Hnone. rewrite filter_cons_True by reflexivity. cbn. lia.
  - rewrite filter_cons_False by (cbn; congruence). rewrite filter_nil.
    specialize (Hone pid'). cbn. lia.
Qed.

Lemma one_row_per_product_update v new_qty id :
  one_row_per_product v ->
  one_row_per_product (set_cart v (set_quantity new_qty id <$> cart_items v)).
Proof.
  intros Hone pid'. unfold cart_rows_for. cbn [cart_items set_cart].
  rewrite filter_set_quantity, length_fmap. apply Hone.
Qed.

(** Whatever the driver does, an add-to-cart request leaves at most one row
    per product in a cart that had at most one. *)
Lemma add_to_cart_keeps_one_row form w w' r :
  one_row_per_product (db w) ->
  ui_add_to_cart form w = (w', r) ->
  one_row_per_product (db w').
Proof.
  intros Hone Hrun. unfold ui_add_to_cart, try_except in Hrun.
  unfold bind at 1 in Hrun.
  match type of Hrun with
  | context [get_db ?b w] => destruct (get_db b w) as [w1 r1] eqn:Hdb
  end.
  assert (Hw : w' = w1) by (destruct r1; injection Hrun as <- _; reflexivity).
  subst w'.
  refine (proj1 (get_db_commits _ one_row_per_product (fun _ => True)
                   w w1 r1 Hone _ Hdb)).
  intros w2 w3 r3 Hdb2 Hview2 _ Hunit.
  destruct (add_to_cart_unit_view _ _ _ _ _ _ Hview2 Hunit)
    as (Hdb3 & v' & Hview3 & Hstep).
  split; [congruence|]. split; [|intros; exact I].
  intros v Hv. rewrite Hview3 in Hv. injection Hv as <-.
  destruct Hstep as [->|(pid & _ & ->)]; [exact Hone|].
  destruct (cart_rows_for pid (db w)) eqn:Hrows.
  - apply one_row_per_product_insert; assumption.
  - apply one_row_per_product_update; assumption.
Qed.

(** ** Runs in which no driver call raises *)

Section Reliable.

Hypothesis env_ok : forall h c, env h c = None.

Lemma driver_ok c w : driver c w = effect c (record c w).
Proof. apply driver_passes, env_ok. Qed.

Lemma connect_ok w :
  _connect_with_retry 5 5 w
  = (mkWorld (db w) (Some (db w)) [] (CConnect :: log w), Return tt).
Proof.
  unfold _connect_with_retry. change (seqZ 0 5) with [0; 1; 2; 3; 4].
  cbn [connect_loop]. unfold try_except, connect.
  rewrite driver_ok. reflexivity.
Qed.

Lemma get_db_ok {A} (body : M A) w w2 a v :
  body (mkWorld (db w) (Some (db w)) [] (CConnect :: log w)) = (w2, Return a) ->
  conn w2 = Some v ->
  get_db body w = (mkWorld v None [] (CClose :: CCommit :: log w2), Return a).
Proof.
  intros Hbody Hview. unfold get_db, bind, try_finally, try_except, bind.
  rewrite connect_ok, Hbody. unfold commit, close, ret.
  rewrite driver_ok. cbn. rewrite driver_ok. cbn. rewrite Hview. reflexivity.
Qed.

Lemma get_cart_total_ok w :
  exists w',
    get_cart_total w = (w', Return (cart_total (db w))) /\
    db w' = db w /\ conn w' = None.
Proof.
  eexists. split.
  - unfold get_cart_total, try_except, cart_total_query.
    erewrite get_db_ok; [reflexivity| |].
    + unfold bind, conn_cursor, execute, fetchone, cur_close, ret.
      rewrite driver_ok. cbn. rewrite driver_ok. cbn.
      rewrite driver_ok. cbn. rewrite driver_ok. cbn. reflexivity.
    + reflexivity.
  - split; reflexivity.
Qed.

(** C1 (amended). In a run in which no driver call raises, and in every
    state whose cart total is strictly positive and in which every line
    amount and the total fit [DECIMAL(10,2)], [ui_checkout] adds exactly one
    row to the orders, with that total as its amount and the status
    "completed", leaves no cart row, and leaves the products as they are. *)
Theorem checkout_places_one_order (w : World) :
  forallb fits_decimal_10_2 (cart_lines (db w)) = true ->
  fits_decimal_10_2 (cart_total (db w)) = true ->
  0 < cart_total (db w) ->
  exists w',
    ui_checkout w
    = (w', Return (Redirect (OrderPlaced (cart_total (db w))) "success")) /\
    orders (db w')
    = orders (db w)
      ++ [mkOrder (next_order_id (db w)) (cart_total (db w)) "completed"] /\
    cart_items (db w') = [] /\
    products (db w') = products (db w).
Proof.
  intros _ _ Hpos.
  destruct (get_cart_total_ok w) as (w1 & Htotal & Hdb1 & _).
  eexists. split.
  - unfold ui_checkout, try_except. unfold bind at 1. rewrite Htotal.
    replace (cart_total (db w) =? 0) with false
      by (symmetry; apply Z.eqb_neq; lia).
    unfold bind at 1. erewrite get_db_ok; [reflexivity| |].
    + unfold bind, conn_cursor, execute, cur_close.
      rewrite driver_ok. cbn. rewrite driver_ok. cbn.
      rewrite driver_ok. cbn. rewrite driver_ok. cbn. reflexivity.
    + reflexivity.
  - cbn. rewrite Hdb1. repeat split.
Qed.

Lemma add_to_cart_ok form w pid :
  db2_integer (strip (form_get form "product_id" "")) = Some pid ->
  exists w',
    ui_add_to_cart form w
    = (w', Return (Redirect (Text "Item added to cart ✓") "success")) /\
    db w' =
      match cart_rows_for pid (db w) with
      | [] =>
          mkStore (products (db w))
                  (cart_items (db w)
                     ++ [mkCartItem (next_cart_id (db w)) pid (requested_qty form)])
                  (orders (db w))
                  (next_product_id (db w)) (next_cart_id (db w) + 1)
                  (next_order_id (db w))
      | c :: _ =>
          set_cart (db w)
            (set_quantity (c_quantity c + requested_qty form) (c_id c)
               <$> cart_items (db w))
      end.
Proof.
  intros Hpid. unfold ui_add_to_cart, try_except. unfold bind at 1.
  destruct (cart_rows_for pid (db w)) as [|c rest] eqn:Hrows.
  - eexists. split.
    + erewrite get_db_ok; [reflexivity| |].
      * unfold add_to_cart_unit, bind, conn_cursor, execute, fetchone, cur_close.
        rewrite driver_ok. cbn. rewrite driver_ok. cbn. rewrite Hpid, Hrows. cbn.
        rewrite driver_ok. cbn. rewrite driver_ok. cbn. rewrite Hpid.
        rewrite driver_ok. cbn. reflexivity.
      * reflexivity.
    + reflexivity.
  - eexists. split.
    + erewrite get_db_ok; [reflexivity| |].
      * unfold add_to_cart_unit, bind, conn_cursor, execute, fetchone, cur_close.
        rewrite driver_ok. cbn. rewrite driver_ok. cbn. rewrite Hpid, Hrows. cbn.
        rewrite driver_ok. cbn. rewrite driver_ok. cbn.
        rewrite driver_ok. cbn. reflexivity.
      * reflexivity.
    + reflexivity.
Qed.

(** C2 (amended). In a run in which no driver call raises, starting from a
    cart that holds no row for product [pid]: two add-to-cart requests for
    [pid] with quantities [q1] and [q2] leave exactly one cart row for
    [pid], the row the first request created, with quantity
    [max(1,q1) + max(1,q2)], that is [q1 + q2] when both are at least 1;
    between the two requests there is exactly one row as well, so at no
    point are there two; and a cart with at most one row for every product
    id keeps that property through both requests. *)
Theorem add_twice_merges (form1 form2 : gmap string string) (pid q1 q2 : Z) (w : World) :
  db2_integer (strip (form_get form1 "product_id" "")) = Some pid ->
  db2_integer (strip (form_get form2 "product_id" "")) = Some pid ->
  py_int (strip (form_get form1 "quantity" "1")) = Some q1 ->
  py_int (strip (form_get form2 "quantity" "1")) = Some q2 ->
  cart_rows_for pid (db w) = [] ->
  exists w1 w2 resp1 resp2 id,
    ui_add_to_cart form1 w = (w1, Return resp1) /\
    ui_add_to_cart form2 w1 = (w2, Return resp2) /\
    cart_rows_for pid (db w1) = [mkCartItem id pid (Z.max 1 q1)] /\
    cart_rows_for pid (db w2) = [mkCartItem id pid (Z.max 1 q1 + Z.max 1 q2)] /\
    (1 <= q1 -> 1 <= q2 ->
     cart_rows_for pid (db w2) = [mkCartItem id pid (q1 + q2)]) /\
    (one_row_per_product (db w) ->
     one_row_per_product (db w1) /\ one_row_per_product (db w2)).
Proof.
  intros Hpid1 Hpid2 Hq1 Hq2 Hnone.
  destruct (add_to_cart_ok form1 w pid Hpid1) as (w1 & Hrun1 & Hdb1).
  destruct (add_to_cart_ok form2 w1 pid Hpid2) as (w2 & Hrun2 & Hdb2).
  rewrite Hnone in Hdb1.
  assert (Hreq1 : requested_qty form1 = Z.max 1 q1).
  { unfold requested_qty. now rewrite Hq1. }
  assert (Hreq2 : requested_qty form2 = Z.max 1 q2).
  { unfold requested_qty. now rewrite Hq2. }
  assert (Hrows1 : cart_rows_for pid (db w1)
                   = [mkCartItem (next_cart_id (db w)) pid (Z.max 1 q1)]).
  { rewrite Hdb1. unfold cart_rows_for in *. cbn [cart_items].
    rewrite filter_app, Hnone, Hreq1.
    rewrite filter_cons_True by reflexivity. reflexivity. }
  rewrite Hrows1 in Hdb2. cbn [c_quantity c_id] in Hdb2.
  assert (Hrows2 : cart_rows_for pid (db w2)
                   = [mkCartItem (next_cart_id (db w)) pid (Z.max 1 q1 + Z.max 1 q2)]).
  { rewrite Hdb2. unfold cart_rows_for in *. cbn [cart_items set_cart].
    rewrite filter_set_quantity, Hrows1, Hreq2. cbn.
    unfold set_quantity. cbn. rewrite decide_True by reflexivity. reflexivity. }
  exists w1, w2. eexists _, _, (next_cart_id (db w)).
  split; [exact Hrun1|]. split; [exact Hrun2|]. split; [exact Hrows1|].
  split; [exact Hrows2|]. split.
  - intros H1 H2. rewrite Hrows2. rewrite !Z.max_r by assumption. reflexivity.
  - intros Hone.
    assert (Hone1 : one_row_per_product (db w1))
      by exact (add_to_cart_keeps_one_row _ _ _ _ Hone Hrun1).
    split; [exact Hone1|].
    exact (add_to_cart_keeps_one_row _ _ _ _ Hone1 Hrun2).
Qed.

End Reliable.

(** ** Quantities in the cart *)

Lemma requested_qty_positive form : 1 <= requested_qty form.
Proof. unfold requested_qty. destruct (py_int _); lia. Qed.

Lemma add_to_cart_keeps_quantities form w w' r :
  quantities_positive (db w) ->
  ui_add_to_cart form w = (w', r) ->
  quantities_positive (db w').
Proof.
  intros Hinv Hrun. unfold ui_add_to_cart, try_except in Hrun.
  unfold bind at 1 in Hrun.
  match type of Hrun with
  | context [get_db ?b w] => destruct (get_db b w) as [w1 r1] eqn:Hdb
  end.
  assert (Hw : w' = w1) by (destruct r1; injection Hrun as <- _; reflexivity).
  subst w'.
  refine (proj1 (get_db_keeps _ quantities_positive
                   (fun row => forall q, row !! 1%nat = Some q -> 1 <= q)
                   (fun _ => True) w w1 r1 Hinv _ Hdb)).
  unfold add_to_cart_unit.
  eapply keeps_bind; [apply keeps_conn_cursor|]. intros _ _.
  eapply keeps_bind.
  { apply keeps_execute. intros v v' rows Hv Hst. cbn in Hst.
    destruct (db2_integer _) as [pid|]; [|discriminate].
    injection Hst as <- <-. split; [exact Hv|].
    apply Forall_fmap, Forall_forall. intros c Hc q [= <-].
    apply list_elem_of_filter in Hc as [_ Hc].
    unfold quantities_positive in Hv. rewrite Forall_forall in Hv.
    apply Hv, Hc. }
  intros _ _. eapply keeps_bind; [apply keeps_fetchone|]. intros row Hrow.
  eapply keeps_bind; [|intros _ _; apply keeps_cur_close].
  assert (Hinsert : keeps (txn (db w) quantities_positive
                             (fun row => forall q, row !! 1%nat = Some q -> 1 <= q))
                      (execute (InsertCartItem (strip (form_get form "product_id" ""))
                                  (requested_qty form)))
                      (fun _ => True)).
  { apply keeps_execute. intros v v' rows Hv Hst. cbn in Hst.
    destruct (db2_integer _) as [pid|]; [|discriminate].
    injection Hst as <- <-. split; [|constructor].
    unfold quantities_positive in *. cbn. apply Forall_app. split; [exact Hv|].
    repeat constructor. cbn. apply requested_qty_positive. }
  destruct row as [[|r0 rest]|]; [exact Hinsert| |exact Hinsert].
  eapply keeps_bind; [apply keeps_getitem|]. intros id _.
  eapply keeps_bind; [apply keeps_getitem|]. intros quantity Hquantity.
  apply keeps_execute. intros v v' rows Hv Hst. cbn in Hst.
  injection Hst as <- <-. split; [|constructor].
  unfold quantities_positive in *. cbn. apply Forall_fmap.
  eapply Forall_impl; [exact Hv|]. intros c Hc. cbn. unfold set_quantity.
  destruct (decide (c_id c = id)); [|exact Hc]. cbn.
  pose proof (Hrow _ eq_refl _ Hquantity). pose proof (requested_qty_positive form).
  lia.
Qed.

(** ** Schema initialisation *)

(** Called with all three arguments, [_create_table_if_not_exists] swallows
    exactly the errors of the statement whose text holds "SQL0601N" or
    "-601", and lets every other error through. *)
Lemma create_table_three_args create_sql table_name w w1 r :
  execute create_sql w = (w1, r) ->
  _create_table_if_not_exists [VCursor; VSql create_sql; VStr table_name] w
  = (w1, match r with
         | Return _ => Return tt
         | Raise exc => if already_exists exc then Return tt else Raise exc
         end).
Proof.
  intros Hexec. unfold _create_table_if_not_exists, call_positional.
  rewrite decide_True by reflexivity. unfold try_except. rewrite Hexec.
  destruct r as [[]|exc]; [reflexivity|].
  destruct (already_exists exc); reflexivity.
Qed.

(** Called as [init_db] calls it, with two arguments, it raises [TypeError]
    before anything is sent to the store. *)
Lemma create_table_two_args create_sql w :
  _create_table_if_not_exists [VCursor; VSql create_sql] w
  = (w, Raise missing_table_name).
Proof. reflexivity. Qed.

Lemma init_schema_raises w :
  exists w' e,
    init_schema w = (w', Raise e) /\ db w' = db w /\ log w' = CCursor :: log w /\
    (env (log w) CCursor = None -> e = missing_table_name).
Proof.
  unfold init_schema, bind at 1, conn_cursor, driver.
  destruct (env (log w) CCursor) as [e|].
  - eexists _, _. repeat split. intros [=].
  - cbn. unfold bind at 1. rewrite create_table_two_args.
    eexists _, _. repeat split.
Qed.

(** [init_db] never completes and never commits: it raises on every run,
    and the store is as before. *)
Lemma init_db_always_raises w :
  exists w' e, init_db w = (w', Raise e) /\ db w' = db w.
Proof.
  destruct (connect_default w) as (w1 & r1 & Hconn & Hdb1 & _).
  destruct (init_schema_raises w1) as (w2 & e & Hbody & Hdb2 & Hlog & _).
  unfold init_db, get_db, bind, try_finally, try_except, bind.
  rewrite Hconn. destruct r1 as [[]|e1]; [|eauto].
  rewrite Hbody. unfold rollback, close, driver, raise.
  destruct (env (log w2) CRollback); cbn;
    destruct (env (CRollback :: log w2) CClose); cbn;
    eexists _, _; (split; [reflexivity|cbn; congruence]).
Qed.

(** ** Edges of connection acquisition *)


(** X1. With [retries <= 0], negative values included, [_connect_with_retry]
    makes no attempt and does not wait: it raises the generic error at once
    and the world is as before. *)
Theorem connect_with_retry_no_retries (retries delay : Z) (w : World) :
  retries <= 0 ->
  _connect_with_retry retries delay w
  = (w, Raise (mkExc ExceptionC "Could not connect to Db2")).
Proof.
  intros Hle. unfold _connect_with_retry, seqZ.
  replace (Z.to_nat retries) with O by lia. reflexivity.
Qed.

(** X2. With a negative [delay] and at least two attempts allowed, a first
    attempt that fails is not followed by a second one: [time.sleep] raises
    at once, and its error replaces the connection error.  The error is
    [ValueError] down to -9223372036 seconds and [OverflowError] below. *)
Theorem connect_with_retry_negative_delay (retries delay : Z) (w : World) (e : Exc) :
  delay < 0 -> 2 <= retries ->
  env (log w) CConnect = Some e ->
  _connect_with_retry retries delay w
  = (record CConnect w,
     Raise (if delay <? -9223372036
            then mkExc OverflowErrorC "timestamp too large to convert to C _PyTime_t"
            else mkExc ValueErrorC "sleep length must be non-negative")).
Proof.
  intros Hdelay Hretries Hfail. unfold _connect_with_retry.
  rewrite seqZ_cons by lia. cbn [connect_loop]. unfold try_except, connect.
  rewrite (driver_raises _ _ _ Hfail). unfold bind.
  replace (0 <? retries - 1) with true by (symmetry; apply Z.ltb_lt; lia).
  unfold sleep.
  replace (9223372036 <? delay) with false by (symmetry; apply Z.ltb_ge; lia).
  replace (delay <? 0) with true by (symmetry; apply Z.ltb_lt; lia).
  rewrite orb_false_r. destruct (delay <? -9223372036); reflexivity.
Qed.



(** X4. When the five attempts of the default acquisition all fail,
    [get_db] raises the error of the fifth without running the unit of work:
    the calls issued are the five attempts and the four waits of five
    seconds between them, and the store, the connection and the cursor are
    as before. *)
Theorem get_db_unreachable {A} (body : M A) (w : World) :
  (forall j, (j < 5)%nat -> attempt_outcome 5 w j <> None) ->
  exists e,
    get_db body w
    = (mkWorld (db w) (conn w) (cursor w)
         (CConnect :: failed_attempts 5 4 ++ log w), Raise e) /\
    attempt_outcome 5 w 4 = Some e /\
    slept (CConnect :: failed_attempts 5 4) = 20.
Proof.
  intros Hdown.
  destruct (connect_loop_spec 5 5 sleep_accepts_default 5%nat
              (mkExc ExceptionC "Could not connect to Db2") w)
    as (w1 & r1 & Hrun & Hspec).
  change (seqZ (5 - Z.of_nat 5) (Z.of_nat 5)) with (seqZ 0 5) in Hrun.
  destruct r1 as [[]|e].
  - destruct Hspec as (k & Hk & _ & _ & Hpass). exfalso.
    exact (Hdown k Hk Hpass).
  - destruct Hspec as (-> & _ & Hlast). exists e.
    split; [|split; [exact Hlast|reflexivity]].
    unfold get_db, bind, _connect_with_retry. rewrite Hrun. reflexivity.
Qed.

(** ** Start of the service and readiness *)

Ltac not_in_log :=
  try reflexivity;
  try (let Hin := fresh in
       intros Hin;
       repeat (apply elem_of_cons in Hin as [Hin|Hin]; [discriminate|]);
       inversion Hin).

Lemma no_execute_failed_attempts delay k : no_execute (failed_attempts delay k).
Proof. induction k; repeat constructor. assumption. Qed.

(** X5. The start-up block never fails and never changes the store,
    whatever the driver does: [init_db] raises on every run before any
    statement is sent, and the block swallows the exception.  The service
    thus starts without having created a table or inserted a seed row. *)
Theorem startup_changes_nothing (w : World) :
  exists w' calls,
    startup w = (w', Return tt) /\
    db w' = db w /\
    log w' = calls ++ log w /\
    no_execute calls.
Proof.
  unfold startup, try_except, init_db, get_db, bind, try_finally, try_except, bind.
  destruct (connect_loop_spec 5 5 sleep_accepts_default 5%nat
              (mkExc ExceptionC "Could not connect to Db2") w)
    as (w1 & r1 & Hconn & Hspec).
  change (seqZ (5 - Z.of_nat 5) (Z.of_nat 5)) with (seqZ 0 5) in Hconn.
  unfold _connect_with_retry. rewrite Hconn.
  destruct r1 as [[]|e1].
  - destruct Hspec as (k & _ & -> & _).
    destruct (init_schema_raises
                (mkWorld (db w) (Some (db w)) [] (CConnect :: failed_attempts 5 k ++ log w)))
      as (w2 & e & Hbody & Hdb2 & Hlog & _).
    rewrite Hbody. unfold rollback, close, driver, raise, ret.
    destruct (env (log w2) CRollback); cbn;
      destruct (env (CRollback :: log w2) CClose); cbn;
      (eexists _, (CClose :: CRollback :: CCursor :: CConnect :: failed_attempts 5 k));
      (split; [reflexivity|]); cbn; rewrite ?Hlog;
      (split; [exact Hdb2|]); (split; [reflexivity|]);
      repeat (constructor; [exact I|]); apply no_execute_failed_attempts.
  - destruct Hspec as (-> & _). cbn.
    eexists _, (CConnect :: failed_attempts 5 4).
    split; [reflexivity|]. split; [reflexivity|]. split; [reflexivity|].
    constructor; [exact I|]. apply no_execute_failed_attempts.
Qed.

Lemma ready_reads (w : World) :
  exists w' resp calls,
    ready w = (w', Return resp) /\
    db w' = db w /\
    log w' = calls ++ log w /\
    (CCommit ∉ calls) /\ (CRollback ∉ calls).
Proof.
  unfold ready, try_except, bind, connect, conn_cursor, execute, cur_close,
    close, driver, ret.
  destruct (env (log w) CConnect); cbn.
  { eexists _, _, [CConnect]. repeat split; not_in_log. }
  destruct (env (CConnect :: log w) CCursor); cbn.
  { eexists _, _, [CCursor; CConnect]. repeat split; not_in_log. }
  destruct (env (CCursor :: CConnect :: log w) (CExecute SelectDummy)); cbn.
  { eexists _, _, [CExecute SelectDummy; CCursor; CConnect].
    repeat split; not_in_log. }
  destruct (env (CExecute SelectDummy :: CCursor :: CConnect :: log w) CCursorClose);
    cbn.
  { eexists _, _, [CCursorClose; CExecute SelectDummy; CCursor; CConnect].
    repeat split; not_in_log. }
  destruct (env (CCursorClose :: CExecute SelectDummy :: CCursor :: CConnect :: log w)
              CClose); cbn;
    eexists _, _, [CClose; CCursorClose; CExecute SelectDummy; CCursor; CConnect];
    repeat split; not_in_log.
Qed.

(** X6. The readiness probe only reads: whatever the driver does, the
    committed store is as before, and neither [commit] nor [rollback] is
    called. *)
Theorem ready_read_only (w : World) :
  exists w' resp calls,
    ready w = (w', Return resp) /\
    db w' = db w /\
    log w' = calls ++ log w /\
    (CCommit ∉ calls) /\ (CRollback ∉ calls).
Proof. exact (ready_reads w). Qed.

(** X7. When the connection attempt of the probe passes and a later call of
    the probe raises before [conn.close()] is reached, [ready] answers 503
    with that error and leaves the connection open: [close] is never called
    on it. *)
Theorem ready_leaves_connection_open (w : World) (e : Exc) :
  env (log w) CConnect = None ->
  env (CConnect :: log w) CCursor = Some e \/
  (env (CConnect :: log w) CCursor = None /\
   env (CCursor :: CConnect :: log w) (CExecute SelectDummy) = Some e) \/
  (env (CConnect :: log w) CCursor = None /\
   env (CCursor :: CConnect :: log w) (CExecute SelectDummy) = None /\
   env (CExecute SelectDummy :: CCursor :: CConnect :: log w) CCursorClose = Some e) ->
  exists w' calls,
    ready w = (w', Return (Json [("status", "not ready"); ("db", str e)] 503)) /\
    log w' = calls ++ log w /\
    (CClose ∉ calls) /\
    conn w' = Some (db w).
Proof.
  intros Hconn Hlater.
  unfold ready, try_except, bind, connect, conn_cursor, execute, cur_close,
    close, driver, ret.
  rewrite Hconn. cbn.
  destruct Hlater as [H2|[(H2 & H3)|(H2 & H3 & H4)]]; rewrite H2; cbn.
  - eexists _, [CCursor; CConnect]. repeat split; not_in_log.
  - rewrite H3. cbn. eexists _, [CExecute SelectDummy; CCursor; CConnect].
    repeat split; not_in_log.
  - rewrite H3. cbn. rewrite H4. cbn.
    eexists _, [CCursorClose; CExecute SelectDummy; CCursor; CConnect].
    repeat split; not_in_log.
Qed.

(** ** What a unit of work can commit *)

(** The ways [get_db] ends: the connection is not acquired and nothing
    changes; or the body ran on a fresh connection and either returned and
    [commit] passed, so that its view is now the committed store, or the
    committed store is the one the body left.  [get_db] returns only in the
    first of these two cases, with the body's value and the connection
    closed. *)
Lemma get_db_cases {A} (body : M A) (w w' : World) (r : Outcome A) :
  get_db body w = (w', r) ->
  (db w' = db w /\ exists e, r = Raise e) \/
  exists w1 w2 r2,
    db w1 = db w /\ conn w1 = Some (db w) /\ cursor w1 = [] /\
    body w1 = (w2, r2) /\
    ((exists a, r2 = Return a /\ db w' = default (db w2) (conn w2) /\
                (r = Return a /\ conn w' = None \/ exists e, r = Raise e)) \/
     (db w' = db w2 /\ exists e, r = Raise e)).
Proof.
  intros Hrun.
  destruct (connect_default w) as (w1 & r1 & Hconn & Hdb1 & Hfresh).
  unfold get_db, bind in Hrun. rewrite Hconn in Hrun.
  destruct r1 as [[]|e1].
  2:{ injection Hrun as <- <-. left. eauto. }
  destruct (Hfresh eq_refl) as [Hview1 Hcur1]. right.
  unfold try_finally, try_except, bind in Hrun.
  destruct (body w1) as [w2 r2] eqn:Hb.
  exists w1, w2, r2. repeat (split; [assumption || reflexivity|]).
  unfold commit, rollback, close, driver, raise, ret in Hrun.
  destruct r2 as [a|e]; cbn in Hrun.
  - destruct (env (log w2) CCommit) as [e|]; cbn in Hrun.
    + right.
      destruct (env (CCommit :: log w2) CRollback); cbn in Hrun;
        destruct (env (CRollback :: CCommit :: log w2) CClose); cbn in Hrun;
        injection Hrun as <- <-; cbn; eauto.
    + left. exists a. split; [reflexivity|].
      destruct (env (CCommit :: log w2) CClose); cbn in Hrun;
        injection Hrun as <- <-; cbn;
        (split; [destruct (conn w2); reflexivity|]); eauto.
  - right.
    destruct (env (log w2) CRollback); cbn in Hrun;
      destruct (env (CRollback :: log w2) CClose); cbn in Hrun;
      injection Hrun as <- <-; cbn; eauto.
Qed.

(** ** Checkout, whatever the driver does *)

(** The [with get_db() as conn:] block of [ui_checkout]. *)
Local Abbreviation checkout_unit total :=
  (run conn_cursor;
   run execute (InsertOrder total "completed");
   run execute DeleteCartItems;
   cur_close).

Lemma checkout_unit_view total w1 w2 r v :
  conn w1 = Some v ->
  checkout_unit total w1 = (w2, r) ->
  db w2 = db w1 /\ (r = Return tt -> conn w2 = Some (order_placed v total)).
Proof.
  intros Hv Hrun.
  unfold bind, conn_cursor, execute, cur_close, driver in Hrun.
  destruct (env (log w1) CCursor); cbn in Hrun.
  { injection Hrun as <- <-. split; [reflexivity|intros [=]]. }
  destruct (env (CCursor :: log w1) (CExecute (InsertOrder total "completed")));
    cbn in Hrun.
  { injection Hrun as <- <-. split; [reflexivity|intros [=]]. }
  rewrite Hv in Hrun. cbn in Hrun.
  destruct (env _ (CExecute DeleteCartItems)); cbn in Hrun.
  { injection Hrun as <- <-. split; [reflexivity|intros [=]]. }
  destruct (env _ CCursorClose); cbn in Hrun; injection Hrun as <- <-;
    (split; [reflexivity|]); [intros [=]|intros _; reflexivity].
Qed.

Lemma checkout_cases (w w' : World) (r : Outcome Response) :
  ui_checkout w = (w', r) ->
  exists resp,
    r = Return resp /\ status_code resp = 302 /\
    (db w' = db w \/
     (cart_total (db w) <> 0 /\ db w' = order_placed (db w) (cart_total (db w)))) /\
    (forall total, resp = Redirect (OrderPlaced total) "success" ->
                   total = cart_total (db w) /\ db w' = order_placed (db w) total) /\
    (resp = Redirect (Text "Cart is empty.") "error" -> db w' = db w).
Proof.
  intros Hrun. unfold ui_checkout, try_except in Hrun. unfold bind at 1 in Hrun.
  destruct (get_cart_total_spec w) as (w0 & t & Htotal & Hdb0 & Ht).
  rewrite Htotal in Hrun.
  destruct (t =? 0) eqn:Hzero.
  { injection Hrun as <- <-. eexists. split; [reflexivity|]. split; [reflexivity|].
    split; [left; exact Hdb0|]. split; [intros total [=]|intros _; exact Hdb0]. }
  apply Z.eqb_neq in Hzero.
  assert (t = cart_total (db w)) as Ht' by (destruct Ht; congruence).
  unfold bind at 1 in Hrun.
  destruct (get_db (checkout_unit t) w0) as [w1 r1] eqn:Hdb.
  assert (Hstore : db w1 = db w \/ db w1 = order_placed (db w) t).
  { destruct (get_db_cases _ _ _ _ Hdb)
      as [[Hsame _]|(w2 & w3 & r3 & Hdb2 & Hview2 & _ & Hunit & Hend)].
    - left. congruence.
    - destruct (checkout_unit_view _ _ _ _ _ Hview2 Hunit) as [Hdb3 Hplaced].
      destruct Hend as [(a & -> & Hcommitted & _)|[Hkept _]].
      + right. destruct a. rewrite Hcommitted, (Hplaced eq_refl). cbn. congruence.
      + left. congruence. }
  assert (Hsuccess : forall a, r1 = Return a -> db w1 = order_placed (db w) t).
  { intros a ->.
    destruct (get_db_cases _ _ _ _ Hdb)
      as [[_ [e [=]]]|(w2 & w3 & r3 & Hdb2 & Hview2 & _ & Hunit & Hend)].
    destruct (checkout_unit_view _ _ _ _ _ Hview2 Hunit) as [Hdb3 Hplaced].
    destruct Hend as [(a' & -> & Hcommitted & _)|[_ [e [=]]]].
    destruct a'. rewrite Hcommitted, (Hplaced eq_refl). cbn. congruence. }
  destruct r1 as [[]|e]; injection Hrun as <- <-;
    (eexists; split; [reflexivity|]; split; [reflexivity|]).
  - split; [right; split; [congruence|rewrite <- Ht'; eauto]|].
    split; [|intros [=]]. intros total [= <-]. split; [exact Ht'|eauto].
  - split; [destruct Hstore as [?|?]; [left; assumption|right; split; congruence]|].
    split; [intros total [=]|]. cbn. intros [=].
Qed.

(** X8. Checkout is all or nothing, whatever the driver does: [ui_checkout]
    always returns a redirect, and afterwards the committed store is either
    the one before, or the one before with exactly one completed order of
    the cart's total added and the cart emptied, never an order beside a
    cart that was kept or an emptied cart without its order.  The success
    message is given only in the second case, and "Cart is empty." only in
    the first. *)
Theorem checkout_all_or_nothing (w w' : World) (r : Outcome Response) :
  ui_checkout w = (w', r) ->
  exists resp,
    r = Return resp /\ status_code resp = 302 /\
    (db w' = db w \/
     (cart_total (db w) <> 0 /\ db w' = order_placed (db w) (cart_total (db w)))) /\
    (forall total, resp = Redirect (OrderPlaced total) "success" ->
                   total = cart_total (db w) /\ db w' = order_placed (db w) total) /\
    (resp = Redirect (Text "Cart is empty.") "error" -> db w' = db w).
Proof. exact (checkout_cases w w' r). Qed.

(** ** Add to cart, whatever the driver does *)

Lemma add_to_cart_unit_returns product_id qty w1 w2 v :
  conn w1 = Some v ->
  add_to_cart_unit product_id qty w1 = (w2, Return tt) ->
  exists pid,
    db2_integer product_id = Some pid /\
    conn w2 = Some (cart_added v pid qty).
Proof.
  intros Hv Hrun.
  unfold add_to_cart_unit, bind, conn_cursor, execute, fetchone, cur_close, driver
    in Hrun.
  destruct (env (log w1) CCursor); cbn in Hrun; [discriminate|].
  destruct (env (CCursor :: log w1) (CExecute (SelectCartByProduct product_id)));
    cbn in Hrun; [discriminate|].
  rewrite Hv in Hrun. cbn in Hrun.
  destruct (db2_integer product_id) as [pid|] eqn:Hpid; cbn in Hrun; [|discriminate].
  destruct (env (CExecute (SelectCartByProduct product_id) :: CCursor :: log w1) CFetchone);
    cbn in Hrun; [discriminate|].
  exists pid. split; [reflexivity|]. unfold cart_added.
  destruct (cart_rows_for pid v) as [|c rest] eqn:Hrows; cbn in Hrun.
  - destruct (env _ (CExecute (InsertCartItem product_id qty))); cbn in Hrun;
      [discriminate|].
    destruct (env _ CCursorClose); cbn in Hrun; [discriminate|].
    injection Hrun as <-. reflexivity.
  - destruct (env _ (CExecute (UpdateCartQuantity _ _))); cbn in Hrun; [discriminate|].
    destruct (env _ CCursorClose); cbn in Hrun; [discriminate|].
    injection Hrun as <-. reflexivity.
Qed.

Lemma add_to_cart_cases (form : gmap string string) (w w' : World)
    (r : Outcome Response) :
  ui_add_to_cart form w = (w', r) ->
  exists resp,
    r = Return resp /\
    (resp = Redirect (Text "Item added to cart ✓") "success" \/
     exists e, resp = Redirect (Text ("Error: " +:+ str e)) "error") /\
    (db w' = db w \/
     exists pid,
       db2_integer (strip (form_get form "product_id" "")) = Some pid /\
       db w' = cart_added (db w) pid (requested_qty form)) /\
    (resp = Redirect (Text "Item added to cart ✓") "success" ->
     exists pid,
       db2_integer (strip (form_get form "product_id" "")) = Some pid /\
       db w' = cart_added (db w) pid (requested_qty form)).
Proof.
  intros Hrun. unfold ui_add_to_cart, try_except in Hrun.
  unfold bind at 1 in Hrun.
  match type of Hrun with
  | context [get_db ?b w] => destruct (get_db b w) as [w1 r1] eqn:Hdb
  end.
  assert (Hcases :
            (db w1 = db w /\ exists e, r1 = Raise e) \/
            exists pid,
              db2_integer (strip (form_get form "product_id" "")) = Some pid /\
              db w1 = cart_added (db w) pid (requested_qty form)).
  { destruct (get_db_cases _ _ _ _ Hdb)
      as [Hsame|(w2 & w3 & r3 & Hdb2 & Hview2 & _ & Hunit & Hend)];
      [left; exact Hsame|].
    destruct Hend as [(a & -> & Hcommitted & _)|[Hkept Hraise]].
    - destruct a.
      destruct (add_to_cart_unit_returns _ _ _ _ _ Hview2 Hunit) as (pid & Hpid & Hview3).
      right. exists pid. split; [exact Hpid|].
      rewrite Hcommitted, Hview3. reflexivity.
    - left. split; [|exact Hraise].
      destruct (add_to_cart_unit_view _ _ _ _ _ _ Hview2 Hunit) as [Hdb3 _].
      congruence. }
  destruct r1 as [[]|e]; injection Hrun as <- <-;
    (eexists; split; [reflexivity|]).
  - split; [left; reflexivity|].
    destruct Hcases as [[_ [e [=]]]|Happlied].
    split; [right; exact Happlied|intros _; exact Happlied].
  - split; [right; eauto|].
    split; [destruct Hcases as [[? _]|?]; [left|right]; assumption|].
    intros [=].
Qed.

(** C9. An add-to-cart request whose quantity field is not an integer is
    served with quantity 1, and a parsed value below 1 is raised to 1, so
    that the quantity served is at least 1; the request is not rejected for
    it.  In a run without driver errors, and with a product id the store
    accepts, the request ends in the success redirect and the committed
    cart holds the row it created, with the quantity served, or the row it
    updated, with the quantity served added to the row's.  Whatever the
    driver does, the committed store is afterwards the one before or the
    one with that row created or updated, the latter whenever the answer is
    the success redirect; and a cart whose rows all have quantity at least
    1 still has that property, for the row created or updated as for the
    others. *)
Theorem add_to_cart_quantity_at_least_one (form : gmap string string) (w : World) :
  (py_int (strip (form_get form "quantity" "1")) = None -> requested_qty form = 1) /\
  (forall n, py_int (strip (form_get form "quantity" "1")) = Some n ->
             requested_qty form = Z.max 1 n) /\
  1 <= requested_qty form /\
  ((forall h c, env h c = None) ->
   forall pid, db2_integer (strip (form_get form "product_id" "")) = Some pid ->
   exists w' row,
     ui_add_to_cart form w
     = (w', Return (Redirect (Text "Item added to cart ✓") "success")) /\
     db w' = cart_added (db w) pid (requested_qty form) /\
     row ∈ cart_items (db w') /\
     row = match cart_rows_for pid (db w) with
           | [] => mkCartItem (next_cart_id (db w)) pid (requested_qty form)
           | c :: _ => mkCartItem (c_id c) pid (c_quantity c + requested_qty form)
           end) /\
  (forall w' r, ui_add_to_cart form w = (w', r) ->
     (db w' = db w \/
      exists pid,
        db2_integer (strip (form_get form "product_id" "")) = Some pid /\
        db w' = cart_added (db w) pid (requested_qty form)) /\
     (r = Return (Redirect (Text "Item added to cart ✓") "success") ->
      exists pid,
        db2_integer (strip (form_get form "product_id" "")) = Some pid /\
        db w' = cart_added (db w) pid (requested_qty form)) /\
     (quantities_positive (db w) -> quantities_positive (db w'))).
Proof.
  split; [|split; [|split; [|split]]].
  - intros Hnone. unfold requested_qty. now rewrite Hnone.
  - intros n Hn. unfold requested_qty. now rewrite Hn.
  - apply requested_qty_positive.
  - intros Hok pid Hpid.
    destruct (add_to_cart_ok Hok form w pid Hpid) as (w' & Hrun & Hdb).
    exists w'. eexists. split; [exact Hrun|]. split; [exact Hdb|].
    split; [|reflexivity]. rewrite Hdb.
    destruct (cart_rows_for pid (db w)) as [|c rest] eqn:Hrows.
    + cbn. apply elem_of_app. right. apply list_elem_of_singleton. reflexivity.
    + assert (Hc : c ∈ cart_rows_for pid (db w)) by (rewrite Hrows; left).
      apply list_elem_of_filter in Hc as [Hpidc Hin].
      cbn. apply list_elem_of_fmap. exists c. split; [|exact Hin].
      unfold set_quantity. rewrite decide_True by reflexivity.
      rewrite Hpidc. reflexivity.
  - intros w' r Hrun.
    destruct (add_to_cart_cases _ _ _ _ Hrun)
      as (resp & -> & _ & Hstore & Hsuccess).
    split; [exact Hstore|]. split.
    + intros [= ->]. apply Hsuccess. reflexivity.
    + intros Hinv. eapply add_to_cart_keeps_quantities; eauto.
Qed.

(** X9. Whatever the driver does, [ui_add_to_cart] returns a redirect, with
    the success message or with "Error: " and the text of an exception, and
    the committed store is afterwards either the one before or the one
    before with the request applied (a row inserted for a product not yet in
    the cart, the quantity of the product's row raised otherwise).  The
    success message is given only when the request has been applied and
    committed. *)
Theorem add_to_cart_outcome (form : gmap string string) (w w' : World)
    (r : Outcome Response) :
  ui_add_to_cart form w = (w', r) ->
  exists resp,
    r = Return resp /\
    (resp = Redirect (Text "Item added to cart ✓") "success" \/
     exists e, resp = Redirect (Text ("Error: " +:+ str e)) "error") /\
    (db w' = db w \/
     exists pid,
       db2_integer (strip (form_get form "product_id" "")) = Some pid /\
       db w' = cart_added (db w) pid (requested_qty form)) /\
    (resp = Redirect (Text "Item added to cart ✓") "success" ->
     exists pid,
       db2_integer (strip (form_get form "product_id" "")) = Some pid /\
       db w' = cart_added (db w) pid (requested_qty form)).
Proof. exact (add_to_cart_cases form w w' r). Qed.

(** X10. A product id the store cannot read as an integer (an empty field,
    for one) is not refused by the handler itself: the request goes to the
    store, and whatever else the driver does it ends in an "Error: "
    redirect with the committed store as before. *)
Theorem add_to_cart_unreadable_product_id (form : gmap string string)
    (w w' : World) (r : Outcome Response) :
  db2_integer (strip (form_get form "product_id" "")) = None ->
  ui_add_to_cart form w = (w', r) ->
  db w' = db w /\
  exists e, r = Return (Redirect (Text ("Error: " +:+ str e)) "error").
Proof.
  intros Hbad Hrun.
  destruct (add_to_cart_cases _ _ _ _ Hrun)
    as (resp & -> & Hresp & Hstore & Hsuccess).
  split.
  - destruct Hstore as [?|(pid & Hpid & _)]; [assumption|congruence].
  - destruct Hresp as [->|[e ->]]; [|eauto].
    destruct (Hsuccess eq_refl) as (pid & Hpid & _). congruence.
Qed.

(** ** Remove from cart *)

(** The [with get_db() as conn:] block of [ui_remove_from_cart]. *)
Local Abbreviation remove_unit cart_id :=
  (run conn_cursor;
   run execute_other (DeleteCartItem cart_id);
   cur_close).

Lemma remove_unit_view cart_id w1 w2 r v :
  conn w1 = Some v ->
  remove_unit cart_id w1 = (w2, r) ->
  db w2 = db w1 /\
  (r = Return tt -> conn w2 = Some (run_other (DeleteCartItem cart_id) v)).
Proof.
  intros Hv Hrun.
  unfold bind, conn_cursor, execute_other, cur_close, driver in Hrun.
  destruct (env (log w1) CCursor); cbn in Hrun.
  { injection Hrun as <- <-. split; [reflexivity|intros [=]]. }
  destruct (env_other (CCursor :: log w1) (DeleteCartItem cart_id)); cbn in Hrun.
  { injection Hrun as <- <-. split; [reflexivity|intros [=]]. }
  rewrite Hv in Hrun. cbn in Hrun.
  destruct (env _ CCursorClose); cbn in Hrun; injection Hrun as <- <-;
    (split; [reflexivity|]); [intros [=]|intros _; reflexivity].
Qed.

Lemma remove_cases (cart_id : Z) (w w' : World) (r : Outcome Response) :
  ui_remove_from_cart cart_id w = (w', r) ->
  exists resp,
    r = Return resp /\
    (resp = Redirect (Text "Item removed from cart ✓") "success" \/
     exists e, resp = Redirect (Text ("Error: " +:+ str e)) "error") /\
    (db w' = db w \/ db w' = run_other (DeleteCartItem cart_id) (db w)) /\
    (resp = Redirect (Text "Item removed from cart ✓") "success" ->
     db w' = run_other (DeleteCartItem cart_id) (db w)).
Proof.
  intros Hrun. unfold ui_remove_from_cart, try_except in Hrun.
  unfold bind at 1 in Hrun.
  destruct (get_db (remove_unit cart_id) w) as [w1 r1] eqn:Hdb.
  assert (Hcases :
            (db w1 = db w /\ exists e, r1 = Raise e) \/
            db w1 = run_other (DeleteCartItem cart_id) (db w)).
  { destruct (get_db_cases _ _ _ _ Hdb)
      as [Hsame|(w2 & w3 & r3 & Hdb2 & Hview2 & _ & Hunit & Hend)];
      [left; exact Hsame|].
    destruct (remove_unit_view _ _ _ _ _ Hview2 Hunit) as [Hdb3 Hdeleted].
    destruct Hend as [(a & -> & Hcommitted & _)|[Hkept Hraise]].
    - destruct a. right. rewrite Hcommitted, (Hdeleted eq_refl). reflexivity.
    - left. split; [congruence|exact Hraise]. }
  destruct r1 as [[]|e]; injection Hrun as <- <-;
    (eexists; split; [reflexivity|]).
  - split; [left; reflexivity|].
    destruct Hcases as [[_ [e [=]]]|Hdeleted].
    split; [right; exact Hdeleted|intros _; exact Hdeleted].
  - split; [right; eauto|].
    split; [destruct Hcases as [[? _]|?]; [left|right]; assumption|].
    intros [=].
Qed.

Lemma filter_other_ids_all cart_id (l : list CartItem) :
  Forall (fun c => c_id c <> cart_id) l ->
  filter (fun c => c_id c <> cart_id) l = l.
Proof.
  induction 1 as [|c l Hc _ IH]; [reflexivity|].
  rewrite filter_cons_True by exact Hc. now rewrite IH.
Qed.

Lemma set_cart_same s : set_cart s (cart_items s) = s.
Proof. now destruct s. Qed.

(** X11. Whatever the driver does, [ui_remove_from_cart] returns a redirect
    and leaves in the cart either all the rows, or all the rows whose id is
    not the given one, in their order and as they were; the products and
    the orders are not touched.  The success message is given only in the
    second case.  When no row has the given id the store is therefore
    unchanged in every case, and the success message is given all the
    same. *)
Theorem remove_from_cart_outcome (cart_id : Z) (w w' : World) (r : Outcome Response) :
  ui_remove_from_cart cart_id w = (w', r) ->
  exists resp,
    r = Return resp /\
    (cart_items (db w') = cart_items (db w) \/
     cart_items (db w') = filter (fun c => c_id c <> cart_id) (cart_items (db w))) /\
    products (db w') = products (db w) /\
    orders (db w') = orders (db w) /\
    (resp = Redirect (Text "Item removed from cart ✓") "success" ->
     cart_items (db w') = filter (fun c => c_id c <> cart_id) (cart_items (db w))) /\
    (Forall (fun c => c_id c <> cart_id) (cart_items (db w)) -> db w' = db w).
Proof.
  intros Hrun.
  destruct (remove_cases _ _ _ _ Hrun) as (resp & -> & _ & Hstore & Hsuccess).
  exists resp. split; [reflexivity|].
  split; [destruct Hstore as [->| ->]; [left|right]; reflexivity|].
  split; [destruct Hstore as [->| ->]; reflexivity|].
  split; [destruct Hstore as [->| ->]; reflexivity|].
  split; [intros Hok; rewrite (Hsuccess Hok); reflexivity|].
  intros Habsent. destruct Hstore as [->| ->]; [reflexivity|].
  cbn. rewrite (filter_other_ids_all _ _ Habsent). apply set_cart_same.
Qed.

(** X12. Removing a row keeps the cart's invariants, whatever the driver
    does: at most one row per product, and quantities of at least 1. *)
Theorem remove_from_cart_keeps_invariants (cart_id : Z) (w w' : World)
    (r : Outcome Response) :
  ui_remove_from_cart cart_id w = (w', r) ->
  (one_row_per_product (db w) -> one_row_per_product (db w')) /\
  (quantities_positive (db w) -> quantities_positive (db w')).
Proof.
  intros Hrun.
  destruct (remove_cases _ _ _ _ Hrun) as (resp & _ & _ & Hstore & _).
  destruct Hstore as [->| ->]; [split; trivial|]. split.
  - intros Hone pid. unfold one_row_per_product, cart_rows_for in *. cbn.
    specialize (Hone pid). rewrite list_filter_filter.
    rewrite (list_filter_iff _ (fun c => c_id c <> cart_id /\ c_product_id c = pid))
      by tauto.
    rewrite <- list_filter_filter.
    etransitivity; [apply length_filter|exact Hone].
  - unfold quantities_positive. cbn. rewrite !Forall_forall.
    intros Hpos c Hc. apply list_elem_of_filter in Hc as [_ Hc]. apply Hpos, Hc.
Qed.

(** ** What the cart handlers leave alone *)

Lemma cart_added_frame s pid qty :
  products (cart_added s pid qty) = products s /\
  orders (cart_added s pid qty) = orders s.
Proof. unfold cart_added. destruct (cart_rows_for pid s); split; reflexivity. Qed.

(** X13. Adding to the cart and checking out never touch the products,
    whatever the driver does: no stock is checked or taken, and the
    catalogue after a checkout is the catalogue before it.  Adding to the
    cart leaves the orders alone as well. *)
Theorem cart_handlers_leave_products (w w' : World) (r : Outcome Response) :
  (forall form, ui_add_to_cart form w = (w', r) ->
                products (db w') = products (db w) /\
                orders (db w') = orders (db w)) /\
  (ui_checkout w = (w', r) -> products (db w') = products (db w)).
Proof.
  split.
  - intros form Hrun.
    destruct (add_to_cart_cases _ _ _ _ Hrun) as (resp & _ & _ & Hstore & _).
    destruct Hstore as [->|(pid & _ & ->)]; [split; reflexivity|].
    apply cart_added_frame.
  - intros Hrun.
    destruct (checkout_cases _ _ _ Hrun) as (resp & _ & _ & Hstore & _).
    destruct Hstore as [->|[_ ->]]; reflexivity.
Qed.

(** ** A close that raises after the commit *)

Ltac run_env Hothers :=
  repeat match goal with
         | |- context [env ?h ?c] =>
             rewrite (Hothers h c) by discriminate; cbn
         end.

(** X14. When every call of a checkout passes but the [conn.close()] that
    follows the commit of the order, the order is committed and the cart
    emptied, and yet the answer is the "Checkout error: " redirect: an
    error answer does not mean that nothing was done. *)
Theorem checkout_error_after_commit (w : World) (e : Exc) :
  let total := cart_total (db w) in
  let h1 := CCommit :: CCursorClose :: CFetchone :: CExecute SelectCartTotal
              :: CCursor :: CConnect :: log w in
  let h2 := CCommit :: CCursorClose :: CExecute DeleteCartItems
              :: CExecute (InsertOrder total "completed")
              :: CCursor :: CConnect :: CClose :: h1 in
  total <> 0 ->
  (forall h c, c <> CClose -> env h c = None) ->
  env h1 CClose = None ->
  env h2 CClose = Some e ->
  exists w',
    ui_checkout w
    = (w', Return (Redirect (Text ("Checkout error: " +:+ str e)) "error")) /\
    db w' = order_placed (db w) total.
Proof.
  intros total h1 h2 Hnonzero Hothers Hfirst Hsecond. subst h1 h2.
  unfold ui_checkout, get_cart_total, cart_total_query, get_db, _connect_with_retry.
  change (seqZ 0 5) with [0; 1; 2; 3; 4]. cbn [connect_loop].
  unfold try_except, try_finally, bind, connect, conn_cursor, execute, fetchone,
    cur_close, commit, rollback, close, driver, ret, raise.
  run_env Hothers. rewrite Hfirst. cbn. fold total.
  replace (total =? 0) with false by (symmetry; apply Z.eqb_neq; exact Hnonzero).
  run_env Hothers. rewrite Hsecond. cbn.
  eexists. split; reflexivity.
Qed.

(** ** More runs in which no call raises *)

Lemma sum_Z_app l1 l2 : sum_Z (l1 ++ l2) = sum_Z l1 + sum_Z l2.
Proof. unfold sum_Z. induction l1 as [|x l1 IH]; cbn; [reflexivity|]. lia. Qed.

(** The total of a cart with one more row. *)
Lemma cart_total_insert s id pid qty :
  cart_total (mkStore (products s) (cart_items s ++ [mkCartItem id pid qty])
                      (orders s) (next_product_id s) (next_cart_id s + 1)
                      (next_order_id s))
  = cart_total s
    + sum_Z ((fun p => p_price p * qty) <$> filter (fun p => p_id p = pid) (products s)).
Proof.
  unfold cart_total. cbn [cart_items products].
  rewrite bind_app, sum_Z_app. f_equal. cbn.
  rewrite app_nil_r. unfold sum_Z.
  induction (filter (fun p => p_id p = pid) (products s)) as [|p l IH];
    [reflexivity|]. cbn. now rewrite IH.
Qed.

Section ReliableMore.

Hypothesis env_ok : forall h c, env h c = None.

Lemma checkout_nonzero_ok w :
  cart_total (db w) <> 0 ->
  exists w',
    ui_checkout w
    = (w', Return (Redirect (OrderPlaced (cart_total (db w))) "success")) /\
    db w' = order_placed (db w) (cart_total (db w)).
Proof.
  intros Hnonzero.
  destruct (get_cart_total_ok env_ok w) as (w1 & Htotal & Hdb1 & _).
  eexists. split.
  - unfold ui_checkout, try_except. unfold bind at 1. rewrite Htotal.
    replace (cart_total (db w) =? 0) with false
      by (symmetry; apply Z.eqb_neq; exact Hnonzero).
    unfold bind at 1. erewrite (get_db_ok env_ok); [reflexivity| |].
    + unfold bind, conn_cursor, execute, cur_close.
      rewrite (driver_ok env_ok). cbn. rewrite (driver_ok env_ok). cbn.
      rewrite (driver_ok env_ok). cbn. rewrite (driver_ok env_ok). cbn. reflexivity.
    + reflexivity.
  - cbn. rewrite Hdb1. reflexivity.
Qed.

Lemma checkout_zero_ok w :
  cart_total (db w) = 0 ->
  exists w',
    ui_checkout w = (w', Return (Redirect (Text "Cart is empty.") "error")) /\
    db w' = db w.
Proof.
  intros Hzero.
  destruct (get_cart_total_ok env_ok w) as (w1 & Htotal & Hdb1 & _).
  exists w1. split; [|exact Hdb1].
  unfold ui_checkout, try_except. unfold bind at 1. rewrite Htotal, Hzero.
  reflexivity.
Qed.

Lemma add_to_cart_added form w pid :
  db2_integer (strip (form_get form "product_id" "")) = Some pid ->
  exists w',
    ui_add_to_cart form w
    = (w', Return (Redirect (Text "Item added to cart ✓") "success")) /\
    db w' = cart_added (db w) pid (requested_qty form).
Proof. exact (add_to_cart_ok env_ok form w pid). Qed.

(** X15. The total is only tested against zero: in a run in which no call
    raises, a cart whose total is negative is checked out like any other,
    and an order with the negative amount is placed. *)
Theorem checkout_negative_total (w : World) :
  cart_total (db w) < 0 ->
  exists w',
    ui_checkout w
    = (w', Return (Redirect (OrderPlaced (cart_total (db w))) "success")) /\
    orders (db w')
    = orders (db w)
      ++ [mkOrder (next_order_id (db w)) (cart_total (db w)) "completed"] /\
    cart_items (db w') = [].
Proof.
  intros Hneg.
  destruct (checkout_nonzero_ok w ltac:(lia)) as (w' & Hrun & Hdb).
  exists w'. split; [exact Hrun|]. rewrite Hdb. split; reflexivity.
Qed.

(** X16. Add to cart, then check out (no call raising): from an empty cart,
    adding the one product with id [pid], whose price is not zero, and
    checking out places one order whose amount is the product's price times
    the quantity served, [max(1, q)] for a parsed [q] and 1 otherwise, and
    leaves the cart empty again. *)
Theorem add_then_checkout (form : gmap string string) (pid : Z) (prod : Product)
    (w : World) :
  db2_integer (strip (form_get form "product_id" "")) = Some pid ->
  cart_items (db w) = [] ->
  filter (fun p => p_id p = pid) (products (db w)) = [prod] ->
  p_price prod <> 0 ->
  exists w1 w2,
    ui_add_to_cart form w
    = (w1, Return (Redirect (Text "Item added to cart ✓") "success")) /\
    ui_checkout w1
    = (w2, Return (Redirect (OrderPlaced (p_price prod * requested_qty form))
                     "success")) /\
    orders (db w2)
    = orders (db w)
      ++ [mkOrder (next_order_id (db w)) (p_price prod * requested_qty form)
            "completed"] /\
    cart_items (db w2) = [].
Proof.
  intros Hpid Hempty Hprod Hprice.
  destruct (add_to_cart_added form w pid Hpid) as (w1 & Hadd & Hdb1).
  assert (Hstore : db w1
            = mkStore (products (db w))
                (cart_items (db w) ++ [mkCartItem (next_cart_id (db w)) pid (requested_qty form)])
                (orders (db w)) (next_product_id (db w)) (next_cart_id (db w) + 1)
                (next_order_id (db w))).
  { rewrite Hdb1. unfold cart_added, cart_rows_for. now rewrite Hempty. }
  assert (Htotal : cart_total (db w1) = p_price prod * requested_qty form).
  { rewrite Hstore, cart_total_insert, Hprod. unfold cart_total.
    rewrite Hempty. cbn. lia. }
  pose proof (requested_qty_positive form) as Hqty.
  destruct (checkout_nonzero_ok w1 ltac:(rewrite Htotal; nia)) as (w2 & Hrun & Hdb2).
  exists w1, w2. split; [exact Hadd|]. rewrite Htotal in Hrun, Hdb2.
  split; [exact Hrun|]. rewrite Hdb2, Hstore. split; reflexivity.
Qed.

(** X17. A product id that is in no row of the products is accepted all the
    same (no call raising): the row is added to the cart, the cart's total
    does not move, since the total joins the cart with the products, and a
    checkout of a cart that holds only such rows answers "Cart is empty."
    and leaves the rows where they are. *)
Theorem add_unknown_product (form : gmap string string) (pid : Z) (w : World) :
  db2_integer (strip (form_get form "product_id" "")) = Some pid ->
  filter (fun p => p_id p = pid) (products (db w)) = [] ->
  cart_rows_for pid (db w) = [] ->
  exists w1,
    ui_add_to_cart form w
    = (w1, Return (Redirect (Text "Item added to cart ✓") "success")) /\
    cart_items (db w1)
    = cart_items (db w) ++ [mkCartItem (next_cart_id (db w)) pid (requested_qty form)] /\
    cart_total (db w1) = cart_total (db w) /\
    (cart_total (db w) = 0 ->
     exists w2,
       ui_checkout w1 = (w2, Return (Redirect (Text "Cart is empty.") "error")) /\
       db w2 = db w1).
Proof.
  intros Hpid Hunknown Hnone.
  destruct (add_to_cart_added form w pid Hpid) as (w1 & Hadd & Hdb1).
  unfold cart_added in Hdb1. rewrite Hnone in Hdb1.
  assert (Htotal : cart_total (db w1) = cart_total (db w)).
  { rewrite Hdb1, cart_total_insert, Hunknown. cbn. lia. }
  exists w1. split; [exact Hadd|]. split; [rewrite Hdb1; reflexivity|].
  split; [exact Htotal|]. intros Hzero.
  apply checkout_zero_ok. congruence.
Qed.

End ReliableMore.

Section ReliableStore.

Hypothesis env_ok : forall h c, env h c = None.
Hypothesis env_other_ok : forall h st, env_other h st = None.

Lemma remove_from_cart_ok cart_id w :
  exists w',
    ui_remove_from_cart cart_id w
    = (w', Return (Redirect (Text "Item removed from cart ✓") "success")) /\
    db w' = run_other (DeleteCartItem cart_id) (db w).
Proof.
  eexists. split.
  - unfold ui_remove_from_cart, try_except. unfold bind at 1.
    erewrite (get_db_ok env_ok); [reflexivity| |].
    + unfold bind, conn_cursor, execute_other, cur_close.
      rewrite (driver_ok env_ok). cbn. rewrite env_other_ok.
      rewrite (driver_ok env_ok). cbn. reflexivity.
    + reflexivity.
  - reflexivity.
Qed.

(** X18. In a run in which no call raises, [ui_remove_from_cart] removes
    the rows with the given id and no other: afterwards no row has that id,
    and every row with another id is still in the cart; under unique ids,
    a cart that held the row is shorter by exactly one. *)
Theorem remove_from_cart_removes_that_row (cart_id : Z) (w : World) :
  exists w',
    ui_remove_from_cart cart_id w
    = (w', Return (Redirect (Text "Item removed from cart ✓") "success")) /\
    (forall c, c ∈ cart_items (db w') <-> c ∈ cart_items (db w) /\ c_id c <> cart_id) /\
    (NoDup (c_id <$> cart_items (db w)) ->
     cart_id ∈ (c_id <$> cart_items (db w)) ->
     S (length (cart_items (db w'))) = length (cart_items (db w))).
Proof.
  destruct (remove_from_cart_ok cart_id w) as (w' & Hrun & Hdb).
  exists w'. split; [exact Hrun|]. rewrite Hdb. cbn. split.
  - intros c. rewrite list_elem_of_filter. tauto.
  - generalize (cart_items (db w)). clear. intros l.
    induction l as [|c l IH]; intros Hnodup Hin; [inversion Hin|].
    rewrite fmap_cons in Hnodup, Hin. apply NoDup_cons in Hnodup as [Hfresh Hnodup].
    destruct (decide (c_id c = cart_id)) as [Heq|Hne].
    + rewrite filter_cons_False by tauto.
      rewrite filter_other_ids_all; [reflexivity|].
      apply Forall_forall. intros c' Hc' Hsame. apply Hfresh.
      apply list_elem_of_fmap. exists c'. split; [congruence|exact Hc'].
    + rewrite filter_cons_True by exact Hne. cbn. f_equal. apply IH; [exact Hnodup|].
      apply elem_of_cons in Hin as [Hin|Hin]; [congruence|exact Hin].
Qed.

(** X19. Add, then remove (no call raising): when the cart has no row for
    the product and no row carries the id the store gives out next, adding
    the product and then removing the row with that id gives back the cart
    rows, the products and the orders as they were. *)
Theorem add_then_remove (form : gmap string string) (pid : Z) (w : World) :
  db2_integer (strip (form_get form "product_id" "")) = Some pid ->
  cart_rows_for pid (db w) = [] ->
  Forall (fun c => c_id c <> next_cart_id (db w)) (cart_items (db w)) ->
  exists w1 w2,
    ui_add_to_cart form w
    = (w1, Return (Redirect (Text "Item added to cart ✓") "success")) /\
    ui_remove_from_cart (next_cart_id (db w)) w1
    = (w2, Return (Redirect (Text "Item removed from cart ✓") "success")) /\
    cart_items (db w2) = cart_items (db w) /\
    products (db w2) = products (db w) /\
    orders (db w2) = orders (db w).
Proof.
  intros Hpid Hnone Hfresh.
  destruct (add_to_cart_ok env_ok form w pid Hpid) as (w1 & Hadd & Hdb1).
  rewrite Hnone in Hdb1.
  destruct (remove_from_cart_ok (next_cart_id (db w)) w1) as (w2 & Hremove & Hdb2).
  exists w1, w2. split; [exact Hadd|]. split; [exact Hremove|].
  rewrite Hdb2, Hdb1. cbn. split; [|split; reflexivity].
  rewrite filter_app, (filter_other_ids_all _ _ Hfresh).
  rewrite filter_cons_False by (cbn; tauto). rewrite filter_nil. apply app_nil_r.
Qed.

End ReliableStore.

(** ** Adding a product *)

(** X20. A product request without a name, or whose price is no float, or
    whose stock is neither empty nor an integer, is answered with its
    validation message before anything is asked of the store: no driver
    call is made, even when a name is missing and the store is down, and
    the world is as before. *)
Theorem add_product_validation (form : gmap string string) (w : World) :
  (strip (form_get form "name" "") = "" ->
   ui_add_product form w
   = (w, Return (Redirect (Text "Product name is required.") "error"))) /\
  (strip (form_get form "name" "") <> "" ->
   py_float (strip (form_get form "price" "0")) = None \/
   (strip (form_get form "stock" "0") <> "" /\
    py_int (strip (form_get form "stock" "0")) = None) ->
   ui_add_product form w
   = (w, Return (Redirect (Text "Invalid price or stock value.") "error"))).
Proof.
  split.
  - intros Hname. unfold ui_add_product. rewrite Hname. reflexivity.
  - intros Hname Hbad. unfold ui_add_product.
    rewrite (decide_False (P := strip (form_get form "name" "") = "")) by exact Hname.
    destruct (py_float (strip (form_get form "price" "0"))) as [price|];
      [|reflexivity].
    destruct Hbad as [[=]|[Hstock Hint]].
    rewrite (decide_False (P := strip (form_get form "stock" "0") = "")) by exact Hstock.
    rewrite Hint. reflexivity.
Qed.

(** X21. In a run in which no call raises, a product request with a name, a
    price that parses and that the store can hold, and a stock that is empty
    (taken as 0) or an integer, adds exactly one product row, with the next
    id, the stripped fields, and "General" for an empty category; the cart
    and the orders are untouched.  Neither the price nor the stock is
    checked for its sign. *)
Theorem add_product_adds_one_row (form : gmap string string) (price : F)
    (cents stock : Z) (w : World) :
  (forall h c, env h c = None) ->
  strip (form_get form "name" "") <> "" ->
  py_float (strip (form_get form "price" "0")) = Some price ->
  db2_decimal price = Some cents ->
  (if decide (strip (form_get form "stock" "0") = "")
   then Some 0 else py_int (strip (form_get form "stock" "0"))) = Some stock ->
  exists w',
    ui_add_product form w
    = (w', Return (Redirect
                     (Text ("Product '" +:+ strip (form_get form "name" "")
                            +:+ "' added to IBM Db2 on IBM Power ✓"))
                     "success")) /\
    products (db w')
    = products (db w)
      ++ [mkProduct (next_product_id (db w))
            (strip (form_get form "name" ""))
            (strip (form_get form "description" ""))
            cents stock
            (if decide (strip (form_get form "category" "General") = "")
             then "General" else strip (form_get form "category" "General"))] /\
    cart_items (db w') = cart_items (db w) /\
    orders (db w') = orders (db w).
Proof.
  intros env_ok Hname Hprice Hcents Hstock. unfold ui_add_product.
  rewrite (decide_False (P := strip (form_get form "name" "") = "")) by exact Hname.
  rewrite Hprice, Hstock. unfold try_except. unfold bind at 1.
  eexists. split.
  - erewrite (get_db_ok env_ok); [reflexivity| |].
    + unfold bind, conn_cursor, execute_insert_product, execute, cur_close.
      rewrite Hcents.
      rewrite (driver_ok env_ok). cbn. rewrite (driver_ok env_ok). cbn.
      rewrite (driver_ok env_ok). cbn. reflexivity.
    + reflexivity.
  - cbn. repeat split.
Qed.

(** The [with get_db() as conn:] block of [ui_add_product]. *)
Local Abbreviation add_product_unit name description price stock category :=
  (run conn_cursor;
   run execute_insert_product name description price stock category;
   cur_close).

Lemma add_product_unit_view name description price stock category w1 w2 r v :
  conn w1 = Some v ->
  add_product_unit name description price stock category w1 = (w2, r) ->
  db w2 = db w1 /\
  (r = Return tt ->
   exists cents,
     db2_decimal price = Some cents /\
     conn w2 = Some (mkStore (products v ++
                                [mkProduct (next_product_id v) name description
                                   cents stock category])
                             (cart_items v) (orders v)
                             (next_product_id v + 1) (next_cart_id v)
                             (next_order_id v))).
Proof.
  intros Hv Hrun.
  unfold bind, conn_cursor, execute_insert_product, cur_close in Hrun.
  unfold driver at 1 in Hrun.
  destruct (env (log w1) CCursor); cbn in Hrun.
  { injection Hrun as <- <-. split; [reflexivity|intros [=]]. }
  destruct (db2_decimal price) as [cents|]; cbn in Hrun.
  2:{ injection Hrun as <- <-. split; [reflexivity|intros [=]]. }
  unfold execute, driver in Hrun. cbn in Hrun.
  destruct (env (CCursor :: log w1) (CExecute _)); cbn in Hrun.
  { injection Hrun as <- <-. split; [reflexivity|intros [=]]. }
  rewrite Hv in Hrun. cbn in Hrun.
  destruct (env _ CCursorClose); cbn in Hrun; injection Hrun as <- <-;
    (split; [reflexivity|]); [intros [=]|intros _; eauto].
Qed.

Lemma add_product_cases (form : gmap string string) (price : F) (stock : Z)
    (w w' : World) (r : Outcome Response) :
  strip (form_get form "name" "") <> "" ->
  py_float (strip (form_get form "price" "0")) = Some price ->
  (if decide (strip (form_get form "stock" "0") = "")
   then Some 0 else py_int (strip (form_get form "stock" "0"))) = Some stock ->
  ui_add_product form w = (w', r) ->
  exists resp,
    r = Return resp /\
    (db w' = db w \/
     exists row,
       products (db w') = products (db w) ++ [row] /\
       p_id row = next_product_id (db w) /\ p_stock row = stock /\
       db2_decimal price = Some (p_price row)) /\
    cart_items (db w') = cart_items (db w) /\
    orders (db w') = orders (db w) /\
    (db2_decimal price = None ->
     db w' = db w /\
     exists e, resp = Redirect (Text ("Error: " +:+ str e)) "error") /\
    (resp = Redirect
              (Text ("Product '" +:+ strip (form_get form "name" "")
                     +:+ "' added to IBM Db2 on IBM Power ✓"))
              "success" \/
     exists e, resp = Redirect (Text ("Error: " +:+ str e)) "error") /\
    status_code resp = 302 /\
    ((forall e, resp <> Redirect (Text ("Error: " +:+ str e)) "error") ->
     exists row, products (db w') = products (db w) ++ [row]).
Proof.
  intros Hname Hprice Hstock Hrun. unfold ui_add_product in Hrun.
  rewrite (decide_False (P := strip (form_get form "name" "") = "")) in Hrun
    by exact Hname.
  rewrite Hprice, Hstock in Hrun. unfold try_except in Hrun.
  unfold bind at 1 in Hrun.
  match type of Hrun with
  | context [get_db ?b w] => destruct (get_db b w) as [w1 r1] eqn:Hdb
  end.
  assert (Hcases :
            (db w1 = db w /\ exists e, r1 = Raise e) \/
            exists cents,
              db2_decimal price = Some cents /\
              db w1 = mkStore (products (db w) ++
                                 [mkProduct (next_product_id (db w))
                                    (strip (form_get form "name" ""))
                                    (strip (form_get form "description" ""))
                                    cents stock
                                    (if decide (strip (form_get form "category" "General") = "")
                                     then "General"
                                     else strip (form_get form "category" "General"))])
                              (cart_items (db w)) (orders (db w))
                              (next_product_id (db w) + 1) (next_cart_id (db w))
                              (next_order_id (db w))).
  { destruct (get_db_cases _ _ _ _ Hdb)
      as [Hsame|(w2 & w3 & r3 & Hdb2 & Hview2 & _ & Hunit & Hend)];
      [left; exact Hsame|].
    destruct (add_product_unit_view _ _ _ _ _ _ _ _ _ Hview2 Hunit) as [Hdb3 Hadded].
    destruct Hend as [(a & -> & Hcommitted & _)|[Hkept Hraise]].
    - destruct a. destruct (Hadded eq_refl) as (cents & Hcents & Hview3).
      right. exists cents. split; [exact Hcents|].
      rewrite Hcommitted, Hview3. reflexivity.
    - left. split; [congruence|exact Hraise]. }
  assert (Hresp : exists resp, r = Return resp /\ w' = w1 /\
                    (r1 = Return tt ->
                     resp = Redirect
                              (Text ("Product '" +:+ strip (form_get form "name" "")
                                     +:+ "' added to IBM Db2 on IBM Power ✓"))
                              "success") /\
                    forall e, r1 = Raise e ->
                              resp = Redirect (Text ("Error: " +:+ str e)) "error").
  { destruct r1 as [[]|e]; injection Hrun as <- <-; eexists;
      (split; [reflexivity|]); (split; [reflexivity|]);
      (split; [try reflexivity; intros [=]|]);
      [intros e [=]|intros e' [= <-]; reflexivity]. }
  destruct Hresp as (resp & -> & -> & Hsuccess & Herror). exists resp.
  split; [reflexivity|].
  assert (Hanswer :
            resp = Redirect
                     (Text ("Product '" +:+ strip (form_get form "name" "")
                            +:+ "' added to IBM Db2 on IBM Power ✓"))
                     "success" \/
            exists e, resp = Redirect (Text ("Error: " +:+ str e)) "error").
  { destruct r1 as [[]|e]; [left; apply Hsuccess; reflexivity|right; eauto]. }
  assert (Hstatus : status_code resp = 302).
  { destruct Hanswer as [->|[e ->]]; reflexivity. }
  destruct Hcases as [[Hsame [e He]]|(cents & Hcents & Hadded)].
  - rewrite Hsame. split; [left; reflexivity|]. split; [reflexivity|].
    split; [reflexivity|]. split; [intros _; split; [reflexivity|]; eauto|].
    split; [exact Hanswer|]. split; [exact Hstatus|].
    intros Hnot. exfalso. exact (Hnot e (Herror e He)).
  - rewrite Hadded. cbn. split.
    + right. eexists. split; [reflexivity|]. cbn. repeat split. exact Hcents.
    + split; [reflexivity|]. split; [reflexivity|]. split; [congruence|].
      split; [exact Hanswer|]. split; [exact Hstatus|].
      intros _. eexists. reflexivity.
Qed.

(** X22. Whatever the driver does, a product request that passes the
    validation ends in a redirect, with the success message or with
    "Error: " and the text of an exception, and leaves the products either
    as they were or with one row added at the end, and the cart and the
    orders as they were; an answer that is no "Error: " redirect means the
    row has been added.  A price that parses but that the store cannot hold
    as [DECIMAL(10,2)] is not a validation error: the request reaches the
    store, nothing is stored, and the answer is an "Error: " redirect. *)
Theorem add_product_outcome (form : gmap string string) (price : F) (stock : Z)
    (w w' : World) (r : Outcome Response) :
  strip (form_get form "name" "") <> "" ->
  py_float (strip (form_get form "price" "0")) = Some price ->
  (if decide (strip (form_get form "stock" "0") = "")
   then Some 0 else py_int (strip (form_get form "stock" "0"))) = Some stock ->
  ui_add_product form w = (w', r) ->
  exists resp,
    r = Return resp /\
    (db w' = db w \/
     exists row,
       products (db w') = products (db w) ++ [row] /\
       p_id row = next_product_id (db w) /\ p_stock row = stock /\
       db2_decimal price = Some (p_price row)) /\
    cart_items (db w') = cart_items (db w) /\
    orders (db w') = orders (db w) /\
    (db2_decimal price = None ->
     db w' = db w /\
     exists e, resp = Redirect (Text ("Error: " +:+ str e)) "error") /\
    (resp = Redirect
              (Text ("Product '" +:+ strip (form_get form "name" "")
                     +:+ "' added to IBM Db2 on IBM Power ✓"))
              "success" \/
     exists e, resp = Redirect (Text ("Error: " +:+ str e)) "error") /\
    status_code resp = 302 /\
    ((forall e, resp <> Redirect (Text ("Error: " +:+ str e)) "error") ->
     exists row, products (db w') = products (db w) ++ [row]).
Proof. exact (add_product_cases form price stock w w' r). Qed.

(** ** Quoting for SQL *)

(** X23. What [_q] returns reads, as the body of an SQL string literal,
    as the text it was given: no quote of the text ends the literal early,
    and different texts are escaped differently. *)
Theorem q_reads_back (value : string) :
  sql_literal_body (_q value) = Some value /\
  forall other, _q other = _q value -> other = value.
Proof.
  assert (Hback : forall s, sql_literal_body (_q s) = Some s).
  { intros s. unfold _q. induction s as [|a s IH]; [reflexivity|].
    cbn [replace_char]. destruct (Ascii.eqb a "'") eqn:Ha.
    - apply Ascii.eqb_eq in Ha as ->.
      change ("''" +:+ replace_char "'" "''" s)
        with (String "'" (String "'" (replace_char "'" "''" s))).
      cbn. rewrite IH. reflexivity.
    - cbn [sql_literal_body]. rewrite Ha, IH. reflexivity. }
  split; [apply Hback|].
  intros other Hsame. pose proof (Hback other) as Hother.
  rewrite Hsame, Hback in Hother. congruence.
Qed.

(** ** The data model over any sequence of requests *)

Lemma add_product_frame (form : gmap string string) (w w' : World)
    (r : Outcome Response) :
  ui_add_product form w = (w', r) ->
  (exists resp, r = Return resp) /\
  (db w' = db w \/ exists row, products (db w') = products (db w) ++ [row]) /\
  cart_items (db w') = cart_items (db w) /\
  orders (db w') = orders (db w).
Proof.
  intros Hrun.
  destruct (decide (strip (form_get form "name" "") = "")) as [Hname|Hname].
  { unfold ui_add_product in Hrun. rewrite decide_True in Hrun by exact Hname.
    injection Hrun as <- <-. eauto 6. }
  destruct (py_float (strip (form_get form "price" "0"))) as [price|] eqn:Hprice.
  2:{ unfold ui_add_product in Hrun. rewrite decide_False in Hrun by exact Hname.
      rewrite Hprice in Hrun. injection Hrun as <- <-. eauto 6. }
  destruct (if decide (strip (form_get form "stock" "0") = "")
            then Some 0 else py_int (strip (form_get form "stock" "0")))
    as [stock|] eqn:Hstock.
  2:{ unfold ui_add_product in Hrun. rewrite decide_False in Hrun by exact Hname.
      rewrite Hprice, Hstock in Hrun. injection Hrun as <- <-. eauto 6. }
  destruct (add_product_cases form price stock w w' r Hname Hprice Hstock Hrun)
    as (resp & -> & Hstore & Hcart & Horders & _).
  split; [eauto|]. split; [|split; assumption].
  destruct Hstore as [?|(row & Hrow & _)]; [left; assumption|right; eauto].
Qed.

Lemma one_row_per_product_same_cart s s' :
  cart_items s' = cart_items s -> one_row_per_product s -> one_row_per_product s'.
Proof. intros Hcart Hone pid. unfold cart_rows_for. rewrite Hcart. apply Hone. Qed.

Lemma quantities_positive_same_cart s s' :
  cart_items s' = cart_items s -> quantities_positive s -> quantities_positive s'.
Proof. unfold quantities_positive. now intros ->. Qed.

Lemma handle_step (req : Request) (w w' : World) (r : Outcome Response) :
  handle req w = (w', r) ->
  (exists resp, r = Return resp) /\
  products (db w) `prefix_of` products (db w') /\
  orders (db w) `prefix_of` orders (db w') /\
  (one_row_per_product (db w) -> one_row_per_product (db w')) /\
  (quantities_positive (db w) -> quantities_positive (db w')).
Proof.
  destruct req as [form|form|cart_id| |]; cbn [handle]; intros Hrun.
  - destruct (add_product_frame _ _ _ _ Hrun) as (Hresp & Hstore & Hcart & Horders).
    split; [exact Hresp|]. split.
    { destruct Hstore as [->|[row ->]]; [reflexivity|]. now apply prefix_app_r. }
    split; [rewrite Horders; reflexivity|]. split.
    + apply one_row_per_product_same_cart, Hcart.
    + apply quantities_positive_same_cart, Hcart.
  - destruct (add_to_cart_cases _ _ _ _ Hrun) as (resp & -> & _ & Hstore & _).
    split; [eauto|].
    assert (Hframe : products (db w') = products (db w) /\ orders (db w') = orders (db w)).
    { destruct Hstore as [->|(pid & _ & ->)]; [split; reflexivity|].
      apply cart_added_frame. }
    destruct Hframe as [-> ->]. split; [reflexivity|]. split; [reflexivity|]. split.
    + intros Hone. eapply add_to_cart_keeps_one_row; eauto.
    + intros Hpos. eapply add_to_cart_keeps_quantities; eauto.
  - destruct (remove_cases _ _ _ _ Hrun) as (resp & -> & _ & Hstore & _).
    split; [eauto|].
    destruct Hstore as [->| ->]; cbn;
      (split; [reflexivity|]); (split; [reflexivity|]); [split; trivial|].
    split.
    + intros Hone pid. unfold one_row_per_product, cart_rows_for in *. cbn.
      specialize (Hone pid). rewrite list_filter_filter.
      rewrite (list_filter_iff _ (fun c => c_id c <> cart_id /\ c_product_id c = pid))
        by tauto.
      rewrite <- list_filter_filter.
      etransitivity; [apply length_filter|exact Hone].
    + unfold quantities_positive. cbn. rewrite !Forall_forall.
      intros Hpos c Hc. apply list_elem_of_filter in Hc as [_ Hc]. apply Hpos, Hc.
  - destruct (checkout_cases _ _ _ Hrun) as (resp & -> & _ & Hstore & _).
    split; [eauto|].
    destruct Hstore as [->|[_ ->]]; cbn;
      (split; [reflexivity|]).
    + split; [reflexivity|]. split; trivial.
    + split; [now apply prefix_app_r|]. split.
      * intros _ pid. cbn. lia.
      * intros _. constructor.
  - destruct (ready_reads w) as (w0 & resp & calls & Hready & Hdb & _).
    rewrite Hready in Hrun. injection Hrun as <- <-. rewrite Hdb.
    split; [eauto|]. split; [reflexivity|]. split; [reflexivity|]. split; trivial.
Qed.

(** X24. Over any sequence of requests to the writing routes and the probe,
    and whatever the driver does: every request is answered (no handler
    lets an exception out); the products and the orders only grow at the
    end, no row of either is ever changed or removed; and a cart with at
    most one row per product and quantities of at least 1 is still such a
    cart at the end. *)
Theorem serve_keeps_data_model (reqs : list Request) (w : World) :
  exists w' resps,
    serve reqs w = (w', Return resps) /\
    length resps = length reqs /\
    products (db w) `prefix_of` products (db w') /\
    orders (db w) `prefix_of` orders (db w') /\
    (one_row_per_product (db w) -> one_row_per_product (db w')) /\
    (quantities_positive (db w) -> quantities_positive (db w')).
Proof.
  revert w. induction reqs as [|req reqs IH]; intros w.
  - exists w, []. repeat split; trivial.
  - cbn [serve]. unfold bind at 1.
    destruct (handle req w) as [w1 r1] eqn:Hreq.
    destruct (handle_step _ _ _ _ Hreq) as ([resp ->] & Hp1 & Ho1 & Hone1 & Hpos1).
    destruct (IH w1) as (w' & resps & Hrest & Hlen & Hp & Ho & Hone & Hpos).
    unfold bind at 1. rewrite Hrest.
    exists w', (resp :: resps). split; [reflexivity|].
    split; [cbn; now rewrite Hlen|].
    split; [etransitivity; eassumption|].
    split; [etransitivity; eassumption|]. split; auto.
Qed.

End App.

(** ** The model at work *)

Example strip_spaces : strip "  1 " = "1".
Proof. reflexivity. Qed.

Example strip_no_break_space : strip (nbsp +:+ " Rack" +:+ nbsp) = "Rack".
Proof. reflexivity. Qed.

(** A wait of more seconds than the 64-bit count of nanoseconds holds is
    refused at once: one attempt, and the error of the wait. *)
Example long_delay_is_refused :
  _connect_with_retry decimal unreachable 2 10000000000 (start empty_store)
  = (mkWorld empty_store None [] [CConnect],
     Raise (mkExc OverflowErrorC "timestamp too large to convert to C _PyTime_t")).
Proof. reflexivity. Qed.

Example already_exists_sqlcode :
  already_exists (mkExc DatabaseErrorC "SQLSTATE=42710 SQLCODE=-601") = true.
Proof. reflexivity. Qed.

Example already_exists_not_type_error : already_exists missing_table_name = false.
Proof. reflexivity. Qed.

Example seeded_total_is_zero : cart_total seeded_store = 0.
Proof. reflexivity. Qed.

Example shop_total : cart_total shop_store = 259998.
Proof. reflexivity. Qed.

Lemma reliable_ok : forall h c, reliable h c = None.
Proof. reflexivity. Qed.

(** A cart whose total is positive while checkout answers that it is
    empty and places no order: the one line amounts to 107999988.00, which
    the cast to [DECIMAL(10,2)] in the total's query refuses, and
    [get_cart_total] reads the refusal as a total of 0. *)
Lemma checkout_line_overflow :
  0 < cart_total bulk_store /\
  cart_lines bulk_store = [10799998800] /\
  exists w',
    ui_checkout decimal (line_overflows bulk_store) (start bulk_store)
    = (w', Return (Redirect (Text "Cart is empty.") "error")) /\
    orders (db w') = [] /\
    cart_items (db w') = [mkCartItem 1 2 1200].
Proof.
  split; [reflexivity|]. split; [reflexivity|].
  eexists. split; [vm_compute; reflexivity|]. split; reflexivity.
Qed.

(** Checkout of the one-product cart. *)
Lemma checkout_places_one_order_witness :
  forallb fits_decimal_10_2 (cart_lines (db (start shop_store))) = true /\
  fits_decimal_10_2 (cart_total (db (start shop_store))) = true /\
  0 < cart_total (db (start shop_store)) /\
  exists w',
    ui_checkout decimal reliable (start shop_store)
    = (w', Return (Redirect (OrderPlaced 259998) "success")) /\
    orders (db w') = [mkOrder 1 259998 "completed"] /\
    cart_items (db w') = [] /\
    products (db w') = products shop_store.
Proof.
  split; [reflexivity|]. split; [reflexivity|]. split; [reflexivity|].
  exact (checkout_places_one_order decimal reliable reliable_ok (start shop_store)
           eq_refl eq_refl eq_refl).
Defined.

(** A requested quantity of 0 counts as 1: adding product 1 with quantity 0
    and then with quantity 5 leaves a row of quantity 6, not 0 + 5. *)
Lemma add_twice_zero_quantity :
  exists w1 w2 resp1 resp2,
    ui_add_to_cart decimal decimal reliable (add_form "1" "0") (start seeded_store)
    = (w1, Return resp1) /\
    ui_add_to_cart decimal decimal reliable (add_form "1" "5") w1
    = (w2, Return resp2) /\
    cart_rows_for 1 (db w2) = [mkCartItem 1 1 6] /\
    ~ exists id, cart_rows_for 1 (db w2) = [mkCartItem id 1 (0 + 5)].
Proof.
  eexists _, _, _, _. split; [vm_compute; reflexivity|].
  split; [vm_compute; reflexivity|].
  split; [vm_compute; reflexivity|].
  intros [id H]. vm_compute in H. discriminate H.
Qed.

Lemma add_twice_merges_witness :
  exists w1 w2 resp1 resp2 id,
    ui_add_to_cart decimal decimal reliable (add_form "1" "2") (start seeded_store)
    = (w1, Return resp1) /\
    ui_add_to_cart decimal decimal reliable (add_form " 1 " "3") w1
    = (w2, Return resp2) /\
    cart_rows_for 1 (db w1) = [mkCartItem id 1 2] /\
    cart_rows_for 1 (db w2) = [mkCartItem id 1 5].
Proof.
  destruct (add_twice_merges decimal decimal reliable reliable_ok
              (add_form "1" "2") (add_form " 1 " "3") 1 2 3 (start seeded_store)
              eq_refl eq_refl eq_refl eq_refl eq_refl)
    as (w1 & w2 & resp1 & resp2 & id & H1 & H2 & H3 & H4 & _).
  exists w1, w2, resp1, resp2, id. repeat split; assumption.
Defined.

(** A unit of work whose commit raises: rolled back, closed, and the
    commit's exception propagates. *)
Lemma get_db_unit_of_work_witness :
  _connect_with_retry decimal commit_fails 5 5 (start shop_store)
  = (mkWorld shop_store (Some shop_store) [] [CConnect], Return tt) /\
  exists w' e,
    get_db decimal commit_fails
      (execute decimal commit_fails (InsertOrder 100 "completed")) (start shop_store)
    = (w', Raise e) /\
    log w' = [CClose; CRollback; CCommit; CExecute (InsertOrder 100 "completed"); CConnect] /\
    conn w' = None /\
    db w' = shop_store.
Proof.
  split; [reflexivity|].
  destruct (get_db_unit_of_work decimal commit_fails
              (execute decimal commit_fails (InsertOrder 100 "completed"))
              (start shop_store)
              (mkWorld shop_store (Some shop_store) [] [CConnect])
              _ _ eq_refl eq_refl)
    as (w' & r' & Hrun & _ & Hclosed & Hcase).
  cbn in Hcase. destruct Hcase as (Hlog & Hdb & [e ->] & _).
  exists w', e. split; [exact Hrun|]. split; [exact Hlog|].
  split; [apply Hclosed; reflexivity|exact Hdb].
Defined.



(** Checkout with no cart row. *)
Lemma checkout_empty_cart_witness :
  cart_total (db (start seeded_store)) = 0 /\
  exists w',
    ui_checkout decimal reliable (start seeded_store)
    = (w', Return (Redirect (Text "Cart is empty.") "error")) /\
    db w' = seeded_store /\
    status_code (Redirect (Text "Cart is empty.") "error") < 500.
Proof.
  split; [reflexivity|].
  exact (checkout_empty_cart decimal reliable (start seeded_store) eq_refl).
Defined.

(** C6. Run again on an initialised store, whose rows are the eight seed
    products, and with a driver that raises nothing, [init_db] raises
    [TypeError]: its calls of [_create_table_if_not_exists] leave out
    [table_name].  The unit of work is rolled back and closed; the eight
    rows are as before. *)
Theorem init_db_again_raises :
  init_db decimal reliable (start seeded_store)
  = (mkWorld seeded_store None [] [CClose; CRollback; CCursor; CConnect],
     Raise (mkExc TypeErrorC
              "_create_table_if_not_exists() missing 1 required positional argument: 'table_name'")) /\
  length (products seeded_store) = 8%nat.
Proof. split; vm_compute; reflexivity. Qed.

(** C7. On a store whose tables exist, where each [CREATE TABLE] would be
    answered with SQL0601N, [init_db] sends no [CREATE TABLE] at all: the
    first call of [_create_table_if_not_exists] raises [TypeError] for its
    missing argument, nothing is swallowed and the initialisation stops
    there. *)
Theorem init_db_sends_no_create_table :
  exists w',
    init_db decimal tables_exist (start seeded_store)
    = (w', Raise (mkExc TypeErrorC
                    "_create_table_if_not_exists() missing 1 required positional argument: 'table_name'")) /\
    log w' = [CClose; CRollback; CCursor; CConnect] /\
    (forall t, CExecute (CreateTable t) ∉ log w') /\
    tables_exist [CCursor; CConnect] (CExecute (CreateTable TProducts)) <> None.
Proof.
  eexists. split; [vm_compute; reflexivity|]. split; [reflexivity|].
  split; [|discriminate].
  intros t Hin. cbn in Hin. repeat (apply elem_of_cons in Hin as [Hin|Hin]; [discriminate|]).
  inversion Hin.
Qed.

(** The probe of an unreachable store. *)
Lemma ready_single_attempt_witness :
  exists w',
    ready decimal unreachable (start empty_store)
    = (w', Return (Json [("status", "not ready");
                         ("db", "SQL30081N  A communication error has been detected")] 503)) /\
    log w' = [CConnect].
Proof.
  destruct (ready_single_attempt decimal unreachable (start empty_store))
    as (w' & resp & calls & Hrun & Hlog & _ & _ & Hdown & _).
  destruct (Hdown _ eq_refl) as [-> ->].
  exists w'. split; [exact Hrun|exact Hlog].
Defined.

(** A quantity that is no number, on a cart whose row has quantity 2. *)
Lemma add_to_cart_quantity_at_least_one_witness :
  decimal (strip (form_get (add_form "1" "many") "quantity" "1")) = None /\
  requested_qty decimal (add_form "1" "many") = 1 /\
  quantities_positive (db (start shop_store)) /\
  exists w',
    ui_add_to_cart decimal decimal reliable (add_form "1" "many") (start shop_store)
    = (w', Return (Redirect (Text "Item added to cart ✓") "success")) /\
    cart_items (db w') = [mkCartItem 1 1 3] /\
    quantities_positive (db w').
Proof.
  destruct (add_to_cart_quantity_at_least_one decimal decimal reliable
              (add_form "1" "many") (start shop_store))
    as (Hdefault & _ & _ & Haccepted & Hany).
  assert (Hnone : decimal (strip (form_get (add_form "1" "many") "quantity" "1")) = None)
    by (vm_compute; reflexivity).
  assert (Hpos : quantities_positive (db (start shop_store)))
    by (repeat constructor; cbn; lia).
  split; [exact Hnone|]. split; [exact (Hdefault Hnone)|]. split; [exact Hpos|].
  destruct (Haccepted reliable_ok 1 ltac:(vm_compute; reflexivity))
    as (w' & row & Hrun & Hdb & _).
  exists w'. split; [exact Hrun|]. split; [rewrite Hdb; reflexivity|].
  exact (proj2 (proj2 (Hany _ _ Hrun)) Hpos).
Defined.

(** A cart worth 2599.98 whose total query fails: checkout says the cart is
    empty. *)
Lemma get_cart_total_failure_reads_as_empty_witness :
  0 < cart_total shop_store /\
  exists w1 e,
    cart_total_query decimal total_query_fails (start shop_store) = (w1, Raise e) /\
    get_cart_total decimal total_query_fails (start shop_store) = (w1, Return 0) /\
    ui_checkout decimal total_query_fails (start shop_store)
    = (w1, Return (Redirect (Text "Cart is empty.") "error")) /\
    db w1 = shop_store.
Proof.
  split; [reflexivity|].
  destruct (get_cart_total_failure_reads_as_empty decimal total_query_fails
              (start shop_store)) as [_ Hfails].
  eexists _, _. split; [vm_compute; reflexivity|].
  eapply Hfails. vm_compute. reflexivity.
Defined.

(** ** The further functions at work *)

Lemma other_reliable_ok : forall h st, other_reliable h st = None.
Proof. reflexivity. Qed.

Lemma connect_with_retry_no_retries_witness :
  -1 <= 0 /\
  _connect_with_retry decimal unreachable (-1) 5 (start empty_store)
  = (start empty_store, Raise (mkExc ExceptionC "Could not connect to Db2")).
Proof.
  split; [lia|].
  exact (connect_with_retry_no_retries decimal unreachable (-1) 5 (start empty_store)
           ltac:(lia)).
Defined.

Lemma connect_with_retry_negative_delay_witness :
  _connect_with_retry decimal unreachable 3 (-1) (start empty_store)
  = (mkWorld empty_store None [] [CConnect],
     Raise (mkExc ValueErrorC "sleep length must be non-negative")).
Proof.
  exact (connect_with_retry_negative_delay decimal unreachable 3 (-1)
           (start empty_store) _ ltac:(lia) ltac:(lia) eq_refl).
Defined.


Lemma get_db_unreachable_witness :
  exists w' e,
    get_db decimal unreachable
      (execute decimal unreachable (InsertOrder 100 "completed")) (start shop_store)
    = (w', Raise e) /\
    db w' = shop_store /\
    log w' = [CConnect; CSleep 5; CConnect; CSleep 5; CConnect; CSleep 5; CConnect;
              CSleep 5; CConnect].
Proof.
  destruct (get_db_unreachable decimal unreachable
              (execute decimal unreachable (InsertOrder 100 "completed"))
              (start shop_store))
    as (e & Hrun & _).
  { intros j _. discriminate. }
  eexists _, e. split; [exact Hrun|]. split; reflexivity.
Defined.

Lemma ready_leaves_connection_open_witness :
  exists w',
    ready decimal cursor_fails (start shop_store)
    = (w', Return (Json [("status", "not ready");
                         ("db", "SQL1224N  The database manager is not able to accept new requests")]
                     503)) /\
    log w' = [CCursor; CConnect] /\
    conn w' = Some shop_store.
Proof.
  destruct (ready_leaves_connection_open decimal cursor_fails (start shop_store) _
              eq_refl (or_introl eq_refl))
    as (w' & calls & Hrun & Hlog & _ & Hopen).
  injection Hrun as <-. eexists. split; [reflexivity|]. split; reflexivity.
Defined.

Lemma checkout_all_or_nothing_witness :
  exists w' resp,
    ui_checkout decimal commit_fails (start shop_store) = (w', Return resp) /\
    status_code resp = 302 /\
    db w' = shop_store.
Proof.
  destruct (ui_checkout decimal commit_fails (start shop_store)) as [w' r] eqn:Hrun.
  destruct (checkout_all_or_nothing decimal commit_fails (start shop_store) w' r Hrun)
    as (resp & -> & Hstatus & _).
  exists w', resp. split; [reflexivity|]. split; [exact Hstatus|].
  vm_compute in Hrun. injection Hrun as <- _. reflexivity.
Defined.

Lemma add_to_cart_outcome_witness :
  exists w' resp,
    ui_add_to_cart decimal decimal commit_fails (add_form "1" "2") (start shop_store)
    = (w', Return resp) /\
    (resp = Redirect (Text "Item added to cart ✓") "success" \/
     exists e, resp = Redirect (Text ("Error: " +:+ str e)) "error").
Proof.
  destruct (ui_add_to_cart decimal decimal commit_fails (add_form "1" "2")
              (start shop_store)) as [w' r] eqn:Hrun.
  destruct (add_to_cart_outcome decimal decimal commit_fails _ _ w' r Hrun)
    as (resp & -> & Hresp & _).
  exists w', resp. split; [reflexivity|exact Hresp].
Defined.

Lemma add_to_cart_unreadable_product_id_witness :
  decimal (strip (form_get (add_form "" "2") "product_id" "")) = None /\
  exists w' e,
    ui_add_to_cart decimal decimal reliable (add_form "" "2") (start shop_store)
    = (w', Return (Redirect (Text ("Error: " +:+ str e)) "error")) /\
    db w' = shop_store.
Proof.
  assert (Hbad : decimal (strip (form_get (add_form "" "2") "product_id" "")) = None)
    by (vm_compute; reflexivity).
  split; [exact Hbad|].
  destruct (ui_add_to_cart decimal decimal reliable (add_form "" "2")
              (start shop_store)) as [w' r] eqn:Hrun.
  destruct (add_to_cart_unreadable_product_id decimal decimal reliable _ _ w' r
              Hbad Hrun) as (Hdb & e & ->).
  exists w', e. split; [reflexivity|exact Hdb].
Defined.

Lemma remove_from_cart_outcome_witness :
  exists w' resp,
    ui_remove_from_cart decimal reliable other_reliable 7 (start shop_store)
    = (w', Return resp) /\
    db w' = shop_store.
Proof.
  destruct (ui_remove_from_cart decimal reliable other_reliable 7 (start shop_store))
    as [w' r] eqn:Hrun.
  destruct (remove_from_cart_outcome decimal reliable other_reliable 7 _ w' r Hrun)
    as (resp & -> & _ & _ & _ & _ & Habsent).
  exists w', resp. split; [reflexivity|]. apply Habsent.
  repeat constructor. cbn. lia.
Defined.

Lemma remove_from_cart_keeps_invariants_witness :
  quantities_positive shop_store /\
  exists w' r,
    ui_remove_from_cart decimal reliable other_reliable 1 (start shop_store) = (w', r) /\
    quantities_positive (db w').
Proof.
  assert (Hpos : quantities_positive shop_store) by (repeat constructor; cbn; lia).
  split; [exact Hpos|].
  destruct (ui_remove_from_cart decimal reliable other_reliable 1 (start shop_store))
    as [w' r] eqn:Hrun.
  destruct (remove_from_cart_keeps_invariants decimal reliable other_reliable 1 _ w' r
              Hrun) as [_ Hkeep].
  exists w', r. split; [reflexivity|exact (Hkeep Hpos)].
Defined.

Lemma cart_handlers_leave_products_witness :
  exists w' r,
    ui_checkout decimal reliable (start shop_store) = (w', r) /\
    products (db w') = products shop_store.
Proof.
  destruct (ui_checkout decimal reliable (start shop_store)) as [w' r] eqn:Hrun.
  destruct (cart_handlers_leave_products decimal decimal reliable (start shop_store) w' r)
    as [_ Hcheckout].
  exists w', r. split; [reflexivity|exact (Hcheckout Hrun)].
Defined.

Lemma checkout_error_after_commit_witness :
  cart_total (db (start shop_store)) <> 0 /\
  exists w',
    ui_checkout decimal close_fails_after_clearing (start shop_store)
    = (w', Return (Redirect
                     (Text "Checkout error: SQL30081N  A communication error has been detected")
                     "error")) /\
    orders (db w') = [mkOrder 1 259998 "completed"] /\
    cart_items (db w') = [].
Proof.
  split; [discriminate|].
  destruct (checkout_error_after_commit decimal close_fails_after_clearing
              (start shop_store)
              (mkExc DatabaseErrorC "SQL30081N  A communication error has been detected"))
    as (w' & Hrun & Hdb).
  - discriminate.
  - intros h c Hc. destruct c; try reflexivity. congruence.
  - vm_compute. reflexivity.
  - vm_compute. reflexivity.
  - exists w'. split; [exact Hrun|]. rewrite Hdb. split; reflexivity.
Defined.

Lemma checkout_negative_total_witness :
  cart_total (db (start refund_store)) < 0 /\
  exists w',
    ui_checkout decimal reliable (start refund_store)
    = (w', Return (Redirect (OrderPlaced (-5000)) "success")) /\
    orders (db w') = [mkOrder 1 (-5000) "completed"] /\
    cart_items (db w') = [].
Proof.
  split; [reflexivity|].
  exact (checkout_negative_total decimal reliable reliable_ok (start refund_store)
           eq_refl).
Defined.

Lemma add_then_checkout_witness :
  exists w1 w2,
    ui_add_to_cart decimal decimal reliable (add_form "6" "3") (start seeded_store)
    = (w1, Return (Redirect (Text "Item added to cart ✓") "success")) /\
    ui_checkout decimal reliable w1
    = (w2, Return (Redirect (OrderPlaced (39999 * 3)) "success")) /\
    cart_items (db w2) = [].
Proof.
  destruct (add_then_checkout decimal decimal reliable reliable_ok
              (add_form "6" "3") 6
              (mkProduct 6 "25GbE Dual-Port NIC"
                 "High-performance 25GbE network adapter for OCP nodes"
                 39999 75 "Networking")
              (start seeded_store))
    as (w1 & w2 & Hadd & Hcheckout & _ & Hcart).
  - vm_compute. reflexivity.
  - reflexivity.
  - vm_compute. reflexivity.
  - discriminate.
  - exists w1, w2. split; [exact Hadd|]. split; [exact Hcheckout|exact Hcart].
Defined.

Lemma add_unknown_product_witness :
  exists w1 w2,
    ui_add_to_cart decimal decimal reliable (add_form "99" "1") (start seeded_store)
    = (w1, Return (Redirect (Text "Item added to cart ✓") "success")) /\
    cart_items (db w1) = [mkCartItem 1 99 1] /\
    ui_checkout decimal reliable w1
    = (w2, Return (Redirect (Text "Cart is empty.") "error")) /\
    cart_items (db w2) = [mkCartItem 1 99 1].
Proof.
  destruct (add_unknown_product decimal decimal reliable reliable_ok
              (add_form "99" "1") 99 (start seeded_store))
    as (w1 & Hadd & Hcart & _ & Hcheckout).
  - vm_compute. reflexivity.
  - vm_compute. reflexivity.
  - reflexivity.
  - destruct (Hcheckout eq_refl) as (w2 & Hrun & Hdb).
    exists w1, w2. split; [exact Hadd|]. split; [exact Hcart|].
    split; [exact Hrun|]. rewrite Hdb. exact Hcart.
Defined.

Lemma remove_from_cart_removes_that_row_witness :
  exists w',
    ui_remove_from_cart decimal reliable other_reliable 1 (start shop_store)
    = (w', Return (Redirect (Text "Item removed from cart ✓") "success")) /\
    S (length (cart_items (db w'))) = length (cart_items shop_store).
Proof.
  destruct (remove_from_cart_removes_that_row decimal reliable other_reliable
              reliable_ok other_reliable_ok 1 (start shop_store))
    as (w' & Hrun & _ & Hshorter).
  exists w'. split; [exact Hrun|]. apply Hshorter.
  - cbn. apply NoDup_singleton.
  - cbn. apply list_elem_of_here.
Defined.

Lemma add_then_remove_witness :
  exists w1 w2,
    ui_add_to_cart decimal decimal reliable (add_form "2" "4") (start shop_store)
    = (w1, Return (Redirect (Text "Item added to cart ✓") "success")) /\
    ui_remove_from_cart decimal reliable other_reliable 2 w1
    = (w2, Return (Redirect (Text "Item removed from cart ✓") "success")) /\
    cart_items (db w2) = cart_items shop_store.
Proof.
  destruct (add_then_remove decimal decimal reliable other_reliable
              reliable_ok other_reliable_ok (add_form "2" "4") 2 (start shop_store))
    as (w1 & w2 & Hadd & Hremove & Hcart & _).
  - vm_compute. reflexivity.
  - reflexivity.
  - repeat constructor. cbn. lia.
  - exists w1, w2. split; [exact Hadd|]. split; [exact Hremove|exact Hcart].
Defined.

Lemma add_product_validation_witness :
  ui_add_product decimal decimal unreachable Z decimal decimal_10_2
    (product_form (" " +:+ nbsp) "ten" "1" "") (start empty_store)
  = (start empty_store, Return (Redirect (Text "Product name is required.") "error")) /\
  ui_add_product decimal decimal unreachable Z decimal decimal_10_2
    (product_form "Rack" "" "1" "") (start empty_store)
  = (start empty_store, Return (Redirect (Text "Invalid price or stock value.") "error")).
Proof.
  split.
  - apply (add_product_validation decimal decimal unreachable Z decimal decimal_10_2
             (product_form (" " +:+ nbsp) "ten" "1" "") (start empty_store)).
    vm_compute. reflexivity.
  - apply (add_product_validation decimal decimal unreachable Z decimal decimal_10_2
             (product_form "Rack" "" "1" "") (start empty_store)).
    + vm_compute. discriminate.
    + left. vm_compute. reflexivity.
Defined.

Lemma add_product_adds_one_row_witness :
  exists w',
    ui_add_product decimal decimal reliable Z decimal decimal_10_2
      (product_form (" Rack" +:+ nbsp) "-1999" nbsp "") (start empty_store)
    = (w', Return (Redirect (Text "Product 'Rack' added to IBM Db2 on IBM Power ✓")
                     "success")) /\
    products (db w') = [mkProduct 1 "Rack" "" (-199900) 0 "General"].
Proof.
  destruct (add_product_adds_one_row decimal decimal reliable Z decimal decimal_10_2
              (product_form (" Rack" +:+ nbsp) "-1999" nbsp "") (-1999) (-199900) 0
              (start empty_store) reliable_ok)
    as (w' & Hrun & Hproducts & _).
  - vm_compute. discriminate.
  - vm_compute. reflexivity.
  - reflexivity.
  - vm_compute. reflexivity.
  - exists w'. split; [exact Hrun|]. exact Hproducts.
Defined.

Lemma add_product_outcome_witness :
  decimal_10_2 100000000 = None /\
  exists w' e,
    ui_add_product decimal decimal reliable Z decimal decimal_10_2
      (product_form "Rack" "100000000" "3" "Racks") (start empty_store)
    = (w', Return (Redirect (Text ("Error: " +:+ str e)) "error")) /\
    db w' = empty_store.
Proof.
  split; [reflexivity|].
  destruct (ui_add_product decimal decimal reliable Z decimal decimal_10_2
              (product_form "Rack" "100000000" "3" "Racks") (start empty_store))
    as [w' r] eqn:Hrun.
  destruct (add_product_outcome decimal decimal reliable Z decimal decimal_10_2
              (product_form "Rack" "100000000" "3" "Racks") 100000000 3
              (start empty_store) w' r)
    as (resp & -> & _ & _ & _ & Hrefused & _).
  - vm_compute. discriminate.
  - vm_compute. reflexivity.
  - vm_compute. reflexivity.
  - exact Hrun.
  - destruct (Hrefused eq_refl) as (Hdb & e & ->).
    exists w', e. split; [reflexivity|exact Hdb].
Defined.

Lemma q_reads_back_witness :
  _q "O'Neil's" = "O''Neil''s" /\
  sql_literal_body (_q "O'Neil's") = Some "O'Neil's".
Proof.
  split; [reflexivity|].
  exact (proj1 (q_reads_back "O'Neil's")).
Defined.

Lemma serve_keeps_data_model_witness :
  one_row_per_product seeded_store /\
  exists w' resps,
    serve decimal decimal commit_fails Z decimal decimal_10_2 other_reliable
      [PostProduct (product_form "Rack" "1999" "" "");
       PostCartAdd (add_form "1" "2"); PostCartAdd (add_form "1" "x");
       PostCartRemove 1; PostCheckout; GetReady]
      (start seeded_store)
    = (w', Return resps) /\
    length resps = 6%nat /\
    one_row_per_product (db w').
Proof.
  assert (Hone : one_row_per_product seeded_store) by (intros pid; cbn; lia).
  split; [exact Hone|].
  destruct (serve_keeps_data_model decimal decimal commit_fails Z decimal decimal_10_2
              other_reliable
              [PostProduct (product_form "Rack" "1999" "" "");
               PostCartAdd (add_form "1" "2"); PostCartAdd (add_form "1" "x");
               PostCartRemove 1; PostCheckout; GetReady]
              (start seeded_store))
    as (w' & resps & Hrun & Hlen & _ & _ & Hkeep & _).
  exists w', resps. split; [exact Hrun|]. split; [exact Hlen|exact (Hkeep Hone)].
Defined.
